(** * Secure single-client TCP command server: a shallow embedding

    Source: proj_cm33_ns/source/secure_tcp_server.c.

    The C translation unit keeps its state in file-scope variables, talks to
    the secure-sockets library, the Ethernet connection manager and the
    FreeRTOS kernel, and is driven by four entry points: the button interrupt
    service routine, the three socket callbacks and the server task.  Each
    entry point becomes a function on a record of the file-scope variables;
    what the libraries answer is an argument of the function, what the entry
    point asks of them is returned as a list of calls, in program order. *)

From Stdlib Require Import ZArith List Bool Lia.
From Stdlib.Strings Require Import String Byte.
From Equations Require Import Equations.
From Equations.Prop Require Import Logic.
Import ListNotations.
Local Open Scope Z_scope.

(** ** Constants of the translation unit *)

Definition cy_rslt_t := Z.
Definition cy_socket_t := Z.

Definition CY_RSLT_SUCCESS : cy_rslt_t := 0.

Definition MAX_ETH_RETRY_COUNT : nat := 3.
Definition TCP_LED_CMD_LEN : Z := 1.
(* '1' and '0' *)
Definition LED_ON_CMD : Z := 49.
Definition LED_OFF_CMD : Z := 48.
Definition RESET_VAL : Z := 0.
Definition NULL_CHARACTER : byte := x00.
Definition DEBOUNCE_TIME_MS : Z := 100.

(** Arithmetic on [uint32_t] wraps. *)
Definition uint32 (z : Z) : Z := z mod 2 ^ 32.

(** Constants that the translation unit takes from headers which are not part
    of the file: the secure-sockets error code for a closed peer, the size of
    the receive buffer and the port (secure_tcp_server.h), the address family
    switch, the tick period of the kernel and the level that lights the LED
    on the board. *)
Class BuildConfig := {
  CY_RSLT_MODULE_SECURE_SOCKETS_CLOSED : cy_rslt_t;
  MAX_TCP_RECV_BUFFER_SIZE : nat;
  TCP_SERVER_PORT : Z;
  USE_IPV6_ADDRESS : bool;
  portTICK_PERIOD_MS : Z;
  CYBSP_LED_STATE_ON : bool
}.

(** The board support package gives the LED two levels; the one that is not
    ON is OFF. *)
Definition CYBSP_LED_STATE_OFF `{BuildConfig} : bool := negb CYBSP_LED_STATE_ON.

(** A build used to evaluate the functions: IPv4, a 20 byte receive buffer,
    a 1 ms tick and an LED lit by a high level. *)
Definition sample_config : BuildConfig := {|
  CY_RSLT_MODULE_SECURE_SOCKETS_CLOSED := 0x2180009;
  MAX_TCP_RECV_BUFFER_SIZE := 20;
  TCP_SERVER_PORT := 50007;
  USE_IPV6_ADDRESS := false;
  portTICK_PERIOD_MS := 1;
  CYBSP_LED_STATE_ON := true
|}.

(** The same build with the IPv6 switch set. *)
Definition sample_config_ipv6 : BuildConfig := {|
  CY_RSLT_MODULE_SECURE_SOCKETS_CLOSED := 0x2180009;
  MAX_TCP_RECV_BUFFER_SIZE := 20;
  TCP_SERVER_PORT := 50007;
  USE_IPV6_ADDRESS := true;
  portTICK_PERIOD_MS := 1;
  CYBSP_LED_STATE_ON := true
|}.

(** ** File-scope variables *)

Inductive cy_socket_ip_version_t := CY_SOCKET_IP_VER_V4 | CY_SOCKET_IP_VER_V6.

(** [cy_socket_sockaddr_t].  The address union is kept as one number; a
    zero-initialised structure has no version yet. *)
Record cy_socket_sockaddr_t := {
  ip_address : Z;
  ip_version : option cy_socket_ip_version_t;
  port : Z
}.

(** The variables of the file that its own statements read or assign, or
    that decide what it does.  Four more variables of the file are only
    handed to the libraries: [ecm_handle] is stored by cy_ecm_ethif_init,
    [tls_identity] by cy_tls_create_identity, [peer_addr] and
    [peer_addr_len] by cy_socket_accept, each through an out-parameter, and
    no statement of the file tests them.  They are not part of the record:
    a statement that the record is unchanged says nothing about them. *)
Record globals := {
  tcp_server_addr : cy_socket_sockaddr_t;
  server_handle : cy_socket_t;
  client_handle : cy_socket_t;
  led_state : bool;
  client_connected : bool;
  button_debouncing : bool;
  button_debounce_timestamp : Z
}.

Definition set_tcp_server_addr (a : cy_socket_sockaddr_t) (g : globals) : globals :=
  {| tcp_server_addr := a;
     server_handle := server_handle g;
     client_handle := client_handle g;
     led_state := led_state g;
     client_connected := client_connected g;
     button_debouncing := button_debouncing g;
     button_debounce_timestamp := button_debounce_timestamp g |}.

Definition set_server_handle (h : cy_socket_t) (g : globals) : globals :=
  {| tcp_server_addr := tcp_server_addr g;
     server_handle := h;
     client_handle := client_handle g;
     led_state := led_state g;
     client_connected := client_connected g;
     button_debouncing := button_debouncing g;
     button_debounce_timestamp := button_debounce_timestamp g |}.

Definition set_client_handle (h : cy_socket_t) (g : globals) : globals :=
  {| tcp_server_addr := tcp_server_addr g;
     server_handle := server_handle g;
     client_handle := h;
     led_state := led_state g;
     client_connected := client_connected g;
     button_debouncing := button_debouncing g;
     button_debounce_timestamp := button_debounce_timestamp g |}.

Definition set_led_state (b : bool) (g : globals) : globals :=
  {| tcp_server_addr := tcp_server_addr g;
     server_handle := server_handle g;
     client_handle := client_handle g;
     led_state := b;
     client_connected := client_connected g;
     button_debouncing := button_debouncing g;
     button_debounce_timestamp := button_debounce_timestamp g |}.

Definition set_client_connected (b : bool) (g : globals) : globals :=
  {| tcp_server_addr := tcp_server_addr g;
     server_handle := server_handle g;
     client_handle := client_handle g;
     led_state := led_state g;
     client_connected := b;
     button_debouncing := button_debouncing g;
     button_debounce_timestamp := button_debounce_timestamp g |}.

Definition set_button_debouncing (b : bool) (g : globals) : globals :=
  {| tcp_server_addr := tcp_server_addr g;
     server_handle := server_handle g;
     client_handle := client_handle g;
     led_state := led_state g;
     client_connected := client_connected g;
     button_debouncing := b;
     button_debounce_timestamp := button_debounce_timestamp g |}.

Definition set_button_debounce_timestamp (t : Z) (g : globals) : globals :=
  {| tcp_server_addr := tcp_server_addr g;
     server_handle := server_handle g;
     client_handle := client_handle g;
     led_state := led_state g;
     client_connected := client_connected g;
     button_debouncing := button_debouncing g;
     button_debounce_timestamp := t |}.

(** The variables as the C start-up code leaves them: everything zero except
    [led_state], which has an initialiser. *)
Definition initial_globals `{BuildConfig} : globals :=
  {| tcp_server_addr := {| ip_address := 0; ip_version := None; port := 0 |};
     server_handle := 0;
     client_handle := 0;
     led_state := CYBSP_LED_STATE_OFF;
     client_connected := false;
     button_debouncing := false;
     button_debounce_timestamp := 0 |}.

(** ** Calls into the libraries, as the program issues them *)

Inductive library_call :=
| call_cy_socket_accept (listener : cy_socket_t) (accepted : option cy_socket_t)
| call_cy_socket_recv (h : cy_socket_t) (capacity : nat)
| call_cy_socket_send (h : cy_socket_t) (payload : Z) (len : Z)
| call_cy_socket_disconnect (h : cy_socket_t) (timeout : Z)
| call_cy_socket_delete (h : cy_socket_t)
| call_xTaskNotifyFromISR (value : Z)
| call_printf (message : string).

Definition is_send (c : library_call) : bool :=
  match c with call_cy_socket_send _ _ _ => true | _ => false end.

Definition is_notify (c : library_call) : bool :=
  match c with call_xTaskNotifyFromISR _ => true | _ => false end.

(** ** The signal channel: the notification slot of the server task *)

(** The slot of the server task that [xTaskNotifyFromISR] writes and
    [xTaskNotifyWait] reads: one value and whether it is pending. *)
Record task_notification := {
  ulNotifiedValue : Z;
  notification_pending : bool
}.

Definition no_notification : task_notification :=
  {| ulNotifiedValue := 0; notification_pending := false |}.

Inductive eNotifyAction := eSetValueWithOverwrite | eSetValueWithoutOverwrite.

(** Modelled from the spec: the bodies of xTaskNotifyFromISR and
    xTaskNotifyWait belong to the FreeRTOS kernel and are missing from the
    sources of the repository.  The producer never blocks; with
    [eSetValueWithoutOverwrite], the action the interrupt handler names, "a
    signal is dropped only if one is already pending and unconsumed, never
    queued", and the call reports failure; with [eSetValueWithOverwrite] the
    pending value is replaced.  The result is the slot and pdPASS ([true])
    or pdFAIL ([false]). *)
Definition xTaskNotifyFromISR (n : task_notification) (ulValue : Z)
    (eAction : eNotifyAction) : task_notification * bool :=
  match eAction with
  | eSetValueWithOverwrite =>
      ({| ulNotifiedValue := uint32 ulValue; notification_pending := true |}, true)
  | eSetValueWithoutOverwrite =>
      if notification_pending n
      then (n, false)
      else ({| ulNotifiedValue := uint32 ulValue; notification_pending := true |}, true)
  end.

(** Modelled from the spec: the body of xTaskNotifyWait is missing as well.
    It "blocks the calling task indefinitely, no timeout, until a signal
    arrives; consuming a signal clears pending state".  [None] is the
    blocked task; the source clears no bits on entry or exit (both masks
    are 0), so the value stays in the slot. *)
Definition xTaskNotifyWait (n : task_notification) : option (Z * task_notification) :=
  if notification_pending n
  then Some (ulNotifiedValue n,
             {| ulNotifiedValue := ulNotifiedValue n; notification_pending := false |})
  else None.

(** ** user_button_interrupt_handler *)

Section Handlers.
Context `{cfg : BuildConfig}.

(** [xTaskGetTickCount() * portTICK_PERIOD_MS] in [uint32_t]. *)
Definition tick_time_ms (xTickCount : Z) : Z :=
  uint32 (xTickCount * portTICK_PERIOD_MS).

(** The test of the inner [if]: the difference and the product are taken in
    [uint32_t]. *)
Definition debounce_elapsed (xTickCount timestamp : Z) : bool :=
  uint32 (DEBOUNCE_TIME_MS * portTICK_PERIOD_MS)
    <=? uint32 (tick_time_ms xTickCount - timestamp).

(** The interrupt service routine.  [btn1_status] is what
    Cy_GPIO_GetInterruptStatus answers for the user button; the tick counter
    is read twice, once for the test and once for the new timestamp.  The
    clearing of the GPIO and NVIC flags and the yield touch no variable of
    the file and are left out. *)
Definition user_button_interrupt_handler (g : globals) (n : task_notification)
    (btn1_status : bool) (tick_at_test tick_at_record : Z)
  : globals * task_notification * list library_call :=
  if btn1_status then
    let g1 :=
      if negb (button_debouncing g) then
        if debounce_elapsed tick_at_test (button_debounce_timestamp g) then
          set_button_debounce_timestamp (tick_time_ms tick_at_record)
            (set_button_debouncing true g)
        else g
      else g in
    if button_debouncing g1 then
      let led_state_cmd :=
        if Bool.eqb CYBSP_LED_STATE_ON (led_state g1)
        then LED_OFF_CMD else LED_ON_CMD in
      let g2 := set_button_debouncing false g1 in
      (g2, fst (xTaskNotifyFromISR n led_state_cmd eSetValueWithoutOverwrite),
       [call_xTaskNotifyFromISR led_state_cmd])
    else (g1, n, [])
  else (g, n, []).

(** ** tcp_connection_handler *)

(** [accept_result] and [accepted] are what cy_socket_accept answers: its
    result and the handle it stores through its last argument on success. *)
Definition tcp_connection_handler (g : globals) (socket_handle : cy_socket_t)
    (accept_result : cy_rslt_t) (accepted : cy_socket_t)
  : globals * list library_call * cy_rslt_t :=
  if accept_result =? CY_RSLT_SUCCESS then
    (set_client_connected true (set_client_handle accepted g),
     [call_cy_socket_accept socket_handle (Some accepted);
      call_printf "Incoming TCP connection accepted";
      call_printf "TLS Handshake successful and communication secured!";
      call_printf "Press the user button to send LED ON/OFF command to the TCP client"],
     accept_result)
  else
    (g,
     [call_cy_socket_accept socket_handle None;
      call_printf "Failed to accept incoming client connection. Error: %u";
      call_printf "===============================================================";
      call_printf "Listening for incoming TCP client connection on Port: %d"],
     accept_result).

(** ** tcp_disconnection_handler *)

Definition tcp_disconnection_handler (g : globals) (socket_handle : cy_socket_t)
    (disconnect_result : cy_rslt_t)
  : globals * list library_call * cy_rslt_t :=
  (set_client_connected false g,
   [call_cy_socket_disconnect socket_handle RESET_VAL;
    call_cy_socket_delete socket_handle;
    call_printf "TCP Client disconnected! Please reconnect the TCP Client";
    call_printf "===============================================================";
    call_printf "Listening for incoming TCP client connection on Port:%d"],
   disconnect_result).

(** ** tcp_receive_msg_handler *)

(** [strcmp] on character arrays: the comparison stops at the first
    difference or at a terminator of both.  The end of the list is read as a
    terminator; it is not reached on terminated arrays. *)
Fixpoint strcmp (s1 s2 : list byte) : Z :=
  match s1, s2 with
  | c1 :: r1, c2 :: r2 =>
      if Byte.eqb c1 c2
      then (if Byte.eqb c1 x00 then 0 else strcmp r1 r2)
      else Z.of_N (Byte.to_N c1) - Z.of_N (Byte.to_N c2)
  | c1 :: _, [] => Z.of_N (Byte.to_N c1)
  | [], c2 :: _ => - Z.of_N (Byte.to_N c2)
  | [], [] => 0
  end.

(** The string literal of the comparison, with its terminator. *)
Definition LED_ON_ACK : list byte := list_byte_of_string "LED ON ACK".
Definition LED_ON_ACK_literal : list byte := LED_ON_ACK ++ [x00].

(** What cy_socket_recv leaves in a buffer of [capacity] bytes when
    [incoming] bytes are waiting: at most [capacity] of them are copied to
    the front, the rest of the buffer keeps its content. *)
Definition recv_into (capacity : nat) (incoming buffer : list byte) : list byte :=
  firstn capacity incoming ++ skipn (List.length (firstn capacity incoming)) buffer.

(** A store to element [i] of an array of [capacity] elements.  A store
    outside the array has no defined result. *)
Definition array_store (capacity : nat) (a : list byte) (i : nat) (v : byte)
  : option (list byte) :=
  if (i <? capacity)%nat then Some (firstn i a ++ v :: skipn (S i) a) else None.

Inductive handler_outcome :=
| Returned (g : globals) (calls : list library_call) (result : cy_rslt_t)
| OutOfBoundsStore (index : nat).

(** [recv_result] and [incoming] are what cy_socket_recv answers;
    [message_buffer] is the content the automatic array happens to have on
    entry. *)
Definition tcp_receive_msg_handler (g : globals) (socket_handle : cy_socket_t)
    (recv_result : cy_rslt_t) (incoming : list byte) (message_buffer : list byte)
  : handler_outcome :=
  let trailer :=
    [call_printf "===============================================================";
     call_printf "Press the user button to send LED ON/OFF command to the TCP client"] in
  if recv_result =? CY_RSLT_SUCCESS then
    let bytes_received := List.length (firstn MAX_TCP_RECV_BUFFER_SIZE incoming) in
    let received := recv_into MAX_TCP_RECV_BUFFER_SIZE incoming message_buffer in
    match array_store MAX_TCP_RECV_BUFFER_SIZE received bytes_received NULL_CHARACTER with
    | None => OutOfBoundsStore bytes_received
    | Some terminated =>
        let g' :=
          if strcmp terminated LED_ON_ACK_literal =? RESET_VAL
          then set_led_state CYBSP_LED_STATE_ON g
          else set_led_state CYBSP_LED_STATE_OFF g in
        Returned g'
          ([call_cy_socket_recv socket_handle MAX_TCP_RECV_BUFFER_SIZE;
            call_printf "Acknowledgement from TCP Client: %s"] ++ trailer)
          recv_result
    end
  else
    let on_error :=
      [call_cy_socket_recv socket_handle MAX_TCP_RECV_BUFFER_SIZE;
       call_printf "Failed to receive acknowledgement from the secure TCP client. Error: %u"] in
    if CY_RSLT_MODULE_SECURE_SOCKETS_CLOSED =? recv_result then
      Returned g
        (on_error ++ [call_cy_socket_disconnect socket_handle RESET_VAL;
                      call_cy_socket_delete socket_handle] ++ trailer)
        recv_result
    else
      Returned g (on_error ++ trailer) recv_result.

(** ** The loop of tcp_secure_server_task *)

(** One turn of the [while(true)] loop.  [None] is the task blocked in
    xTaskNotifyWait; [send_result] is what cy_socket_send answers when it is
    called.  The command is a [uint32_t] of which the first byte is sent. *)
Definition server_task_loop_body (g : globals) (n : task_notification)
    (send_result : cy_rslt_t)
  : option (globals * task_notification * list library_call) :=
  match xTaskNotifyWait n with
  | None => None
  | Some (led_state_cmd, n') =>
      if client_connected g then
        let send := call_cy_socket_send (client_handle g)
                      (Z.land led_state_cmd 255) TCP_LED_CMD_LEN in
        if CY_RSLT_SUCCESS =? send_result then
          if LED_ON_CMD =? led_state_cmd
          then Some (g, n', [send; call_printf "LED ON command sent to TCP client"])
          else Some (g, n', [send; call_printf "LED OFF command sent to TCP client"])
        else
          let failed := call_printf "Failed to send command to client. Error: %u" in
          if CY_RSLT_MODULE_SECURE_SOCKETS_CLOSED =? send_result then
            Some (g, n',
                  [send; failed;
                   call_cy_socket_disconnect (client_handle g) RESET_VAL;
                   call_cy_socket_delete (client_handle g)])
          else Some (g, n', [send; failed])
      else Some (g, n', [])
  end.

End Handlers.

(** ** Start-up: the calls made before the loop *)

Inductive socket_option :=
| CY_SOCKET_SO_RCVTIMEO
| CY_SOCKET_SO_CONNECT_REQUEST_CALLBACK
| CY_SOCKET_SO_RECEIVE_CALLBACK
| CY_SOCKET_SO_DISCONNECT_CALLBACK
| CY_SOCKET_SO_TLS_IDENTITY
| CY_SOCKET_SO_TLS_AUTH_MODE.

Inductive startup_call :=
| call_Cy_SysInt_Init
| call_cy_ecm_init
| call_cy_ecm_ethif_init
| call_cy_ecm_connect
| call_cy_ecm_get_ipv6_address
| call_cy_socket_init
| call_cy_tls_create_identity
| call_cy_tls_load_global_root_ca_certificates
| call_cy_socket_create
| call_cy_socket_setsockopt (optname : socket_option)
| call_cy_socket_bind
| call_cy_socket_listen
| call_cy_socket_delete_server.

(** What the libraries answer during start-up: a result for each call, for
    cy_ecm_connect a result and an address for each attempt, the link-local
    address of cy_ecm_get_ipv6_address and the handle of cy_socket_create. *)
Record library_answers := {
  answer : startup_call -> cy_rslt_t;
  connect_answer : nat -> cy_rslt_t * Z;
  ipv6_link_local : Z;
  created_socket : cy_socket_t
}.

Section Startup.
Context `{cfg : BuildConfig}.

(** *** create_secure_tcp_server_socket *)

Definition create_secure_tcp_server_socket (lib : library_answers) (g : globals)
  : globals * list startup_call * cy_rslt_t :=
  let result := answer lib call_cy_socket_create in
  if negb (CY_RSLT_SUCCESS =? result) then (g, [call_cy_socket_create], result) else
  let g := set_server_handle (created_socket lib) g in
  let t := [call_cy_socket_create] in
  let result := answer lib (call_cy_socket_setsockopt CY_SOCKET_SO_RCVTIMEO) in
  let t := t ++ [call_cy_socket_setsockopt CY_SOCKET_SO_RCVTIMEO] in
  if negb (CY_RSLT_SUCCESS =? result) then (g, t, result) else
  let result := answer lib (call_cy_socket_setsockopt CY_SOCKET_SO_CONNECT_REQUEST_CALLBACK) in
  let t := t ++ [call_cy_socket_setsockopt CY_SOCKET_SO_CONNECT_REQUEST_CALLBACK] in
  if negb (result =? CY_RSLT_SUCCESS) then (g, t, result) else
  let result := answer lib (call_cy_socket_setsockopt CY_SOCKET_SO_RECEIVE_CALLBACK) in
  let t := t ++ [call_cy_socket_setsockopt CY_SOCKET_SO_RECEIVE_CALLBACK] in
  if negb (CY_RSLT_SUCCESS =? result) then (g, t, result) else
  let result := answer lib (call_cy_socket_setsockopt CY_SOCKET_SO_DISCONNECT_CALLBACK) in
  let t := t ++ [call_cy_socket_setsockopt CY_SOCKET_SO_DISCONNECT_CALLBACK] in
  if negb (CY_RSLT_SUCCESS =? result) then (g, t, result) else
  let result := answer lib (call_cy_socket_setsockopt CY_SOCKET_SO_TLS_IDENTITY) in
  let t := t ++ [call_cy_socket_setsockopt CY_SOCKET_SO_TLS_IDENTITY] in
  if negb (CY_RSLT_SUCCESS =? result) then (g, t, result) else
  (* the result of this call is not stored *)
  let t := t ++ [call_cy_socket_setsockopt CY_SOCKET_SO_TLS_AUTH_MODE] in
  let result := answer lib call_cy_socket_bind in
  let t := t ++ [call_cy_socket_bind] in
  (g, t, result).

(** The calls of a complete set-up, in the order of the program text. *)
Definition setup_order : list startup_call :=
  [call_cy_socket_create;
   call_cy_socket_setsockopt CY_SOCKET_SO_RCVTIMEO;
   call_cy_socket_setsockopt CY_SOCKET_SO_CONNECT_REQUEST_CALLBACK;
   call_cy_socket_setsockopt CY_SOCKET_SO_RECEIVE_CALLBACK;
   call_cy_socket_setsockopt CY_SOCKET_SO_DISCONNECT_CALLBACK;
   call_cy_socket_setsockopt CY_SOCKET_SO_TLS_IDENTITY;
   call_cy_socket_setsockopt CY_SOCKET_SO_TLS_AUTH_MODE;
   call_cy_socket_bind].

Definition is_connect_attempt (c : startup_call) : bool :=
  match c with call_cy_ecm_connect => true | _ => false end.

(** The calls that belong to the socket layer. *)
Definition is_socket_call (c : startup_call) : bool :=
  match c with
  | call_cy_socket_init | call_cy_socket_create | call_cy_socket_setsockopt _
  | call_cy_socket_bind | call_cy_socket_listen | call_cy_socket_delete_server => true
  | _ => false
  end.

(** The calls of a result that is a triple of variables, calls and result. *)
Definition trace_of {A B C} (x : A * B * C) : B := snd (fst x).

(** *** The task up to its loop, with handle_app_error *)

(** A computation of the task: the calls it made, and its value unless it
    entered handle_app_error. *)
Definition task (A : Type) : Type := list startup_call * option A.

Definition ret {A} (a : A) : task A := ([], Some a).

Definition bind {A B} (m : task A) (k : A -> task B) : task B :=
  match m with
  | (t, None) => (t, None)
  | (t, Some a) => let (t', r) := k a in (t ++ t', r)
  end.

Definition call (lib : library_answers) (c : startup_call) : task cy_rslt_t :=
  ([c], Some (answer lib c)).

(** Modelled from the spec: handle_app_error is declared in a header and its
    body is missing from the sources of the repository.  Failures at
    start-up are "fatal (process halt/reset)":
    the function does not return to its caller. *)
Definition handle_app_error {A} : task A := ([], None).

Definition when (b : bool) (m : task unit) : task unit :=
  if b then m else ret tt.

End Startup.

Declare Scope task_scope.
Delimit Scope task_scope with task.
Notation "x <- m ;; k" := (bind m (fun x => k))
  (at level 61, m at next level, right associativity) : task_scope.
Notation "m ;;; k" := (bind m (fun _ => k))
  (at level 61, right associativity) : task_scope.

Section Bring_up.
Context `{cfg : BuildConfig}.
Local Open Scope task_scope.

(** *** connect_to_ethernet *)

(** The body of the [else] branch after a successful cy_ecm_connect, for the
    two settings of USE_IPV6_ADDRESS.  With IPv6 the [memcpy] has the local
    [ip_addr] as its destination, so the address member of
    [tcp_server_addr] is not written. *)
Definition record_address (lib : library_answers) (g : globals) (ip_v4 : Z)
  : globals * list startup_call * cy_rslt_t :=
  if USE_IPV6_ADDRESS then
    let result := answer lib call_cy_ecm_get_ipv6_address in
    if result =? CY_RSLT_SUCCESS then
      (set_tcp_server_addr
         {| ip_address := ip_address (tcp_server_addr g);
            ip_version := Some CY_SOCKET_IP_VER_V6;
            port := TCP_SERVER_PORT |} g,
       [call_cy_ecm_get_ipv6_address], result)
    else (g, [call_cy_ecm_get_ipv6_address], result)
  else
    (set_tcp_server_addr
       {| ip_address := ip_v4;
          ip_version := Some CY_SOCKET_IP_VER_V4;
          port := TCP_SERVER_PORT |} g,
     [], CY_RSLT_SUCCESS).

(** The [while(true)] loop.  [retry_count] is a [uint8_t] that the loop
    leaves before it can reach 3, so it is counted in [nat]; the attempt
    made with [retry_count] failures behind it is attempt number
    [retry_count]. *)
Equations? connect_loop (lib : library_answers) (g : globals) (retry_count : nat)
  : globals * list startup_call * cy_rslt_t
  by wf (MAX_ETH_RETRY_COUNT - retry_count)%nat lt :=
connect_loop lib g retry_count
  with inspect (negb (fst (connect_answer lib retry_count) =? CY_RSLT_SUCCESS)) := {
  | exist _ true _
      with inspect (MAX_ETH_RETRY_COUNT <=? S retry_count)%nat := {
      | exist _ true _ =>
          (g, [call_cy_ecm_connect], fst (connect_answer lib retry_count))
      | exist _ false _ =>
          let '(g', t, result) := connect_loop lib g (S retry_count) in
          (g', call_cy_ecm_connect :: t, result) }
  | exist _ false _ =>
      let '(g', t, result) :=
        record_address lib g (snd (connect_answer lib retry_count)) in
      (g', call_cy_ecm_connect :: t, result) }.
Proof.
  unfold MAX_ETH_RETRY_COUNT.
  destruct retry_count as [|[|[|?]]]; simpl in *; try discriminate; lia.
Qed.

Definition connect_to_ethernet (lib : library_answers) (g : globals)
  : task (globals * cy_rslt_t) :=
  result <- call lib call_cy_ecm_init ;;
  when (negb (result =? CY_RSLT_SUCCESS)) handle_app_error ;;;
  result <- call lib call_cy_ecm_ethif_init ;;
  when (negb (result =? CY_RSLT_SUCCESS)) handle_app_error ;;;
  let '(g', t, result) := connect_loop lib g 0 in
  (t, Some (g', result)).

(** *** tcp_secure_server_task, from its entry to the loop *)

Definition server_task_startup (lib : library_answers) (g : globals)
  : task globals :=
  status <- call lib call_Cy_SysInt_Init ;;
  when (negb (0 =? status)) handle_app_error ;;;
  r <- connect_to_ethernet lib g ;;
  let '(g, result) := r in
  when (negb (result =? CY_RSLT_SUCCESS)) handle_app_error ;;;
  result <- call lib call_cy_socket_init ;;
  when (negb (result =? CY_RSLT_SUCCESS)) handle_app_error ;;;
  result <- call lib call_cy_tls_create_identity ;;
  when (negb (CY_RSLT_SUCCESS =? result)) handle_app_error ;;;
  result <- call lib call_cy_tls_load_global_root_ca_certificates ;;
  when (negb (CY_RSLT_SUCCESS =? result)) handle_app_error ;;;
  let '(g, t, result) := create_secure_tcp_server_socket lib g in
  (t, Some tt) ;;;
  when (negb (CY_RSLT_SUCCESS =? result)) handle_app_error ;;;
  result <- call lib call_cy_socket_listen ;;
  when (negb (CY_RSLT_SUCCESS =? result))
    (([call_cy_socket_delete_server], Some tt) ;;; handle_app_error) ;;;
  ret g.

End Bring_up.

(** ** The running server: events and runs *)

(** After start-up the program is driven from outside: the button
    interrupt, the three socket callbacks and the wake-up of the task.  Each
    event carries what the libraries answer during the entry point. *)
Inductive event :=
| button_interrupt (btn1_status : bool) (tick_at_test tick_at_record : Z)
| connect_request (listener : cy_socket_t) (accept_result : cy_rslt_t)
    (accepted : cy_socket_t)
| data_received (h : cy_socket_t) (recv_result : cy_rslt_t)
    (incoming message_buffer : list byte)
| peer_disconnected (h : cy_socket_t) (disconnect_result : cy_rslt_t)
| task_turn (send_result : cy_rslt_t).

Record system := {
  vars : globals;
  slot : task_notification
}.

Section Runs.
Context `{cfg : BuildConfig}.

(** The system before tcp_secure_server_task has run: the variables as the
    C start-up code leaves them.  The callbacks and the loop run later, in
    states that start-up and earlier events have changed, so the properties
    below are stated for any state and not for this one. *)
Definition initial_system : system :=
  {| vars := initial_globals; slot := no_notification |}.

(** One entry point runs to its end before the next starts.  [None]: the
    event cannot be taken (the task is blocked) or the entry point left
    defined behaviour (a store outside the receive buffer). *)
Definition step (s : system) (e : event) : option (system * list library_call) :=
  match e with
  | button_interrupt btn1_status tick_at_test tick_at_record =>
      let '(g, n, calls) :=
        user_button_interrupt_handler (vars s) (slot s)
          btn1_status tick_at_test tick_at_record in
      Some ({| vars := g; slot := n |}, calls)
  | connect_request listener accept_result accepted =>
      let '(g, calls, _) :=
        tcp_connection_handler (vars s) listener accept_result accepted in
      Some ({| vars := g; slot := slot s |}, calls)
  | data_received h recv_result incoming message_buffer =>
      match tcp_receive_msg_handler (vars s) h recv_result incoming message_buffer with
      | Returned g calls _ => Some ({| vars := g; slot := slot s |}, calls)
      | OutOfBoundsStore _ => None
      end
  | peer_disconnected h disconnect_result =>
      let '(g, calls, _) := tcp_disconnection_handler (vars s) h disconnect_result in
      Some ({| vars := g; slot := slot s |}, calls)
  | task_turn send_result =>
      match server_task_loop_body (vars s) (slot s) send_result with
      | Some (g, n, calls) => Some ({| vars := g; slot := n |}, calls)
      | None => None
      end
  end.

Fixpoint run (s : system) (es : list event) : option (system * list library_call) :=
  match es with
  | [] => Some (s, [])
  | e :: es' =>
      match step s e with
      | None => None
      | Some (s', calls) =>
          match run s' es' with
          | None => None
          | Some (s'', calls') => Some (s'', calls ++ calls')
          end
      end
  end.

(** The events that report a closed peer: the receive callback or the send
    of the task failing with the closed-socket error. *)
Definition peer_closed (e : event) : bool :=
  match e with
  | data_received _ recv_result _ _ =>
      negb (recv_result =? CY_RSLT_SUCCESS) &&
      (CY_RSLT_MODULE_SECURE_SOCKETS_CLOSED =? recv_result)
  | task_turn send_result =>
      negb (CY_RSLT_SUCCESS =? send_result) &&
      (CY_RSLT_MODULE_SECURE_SOCKETS_CLOSED =? send_result)
  | _ => false
  end.

Definition is_disconnect (e : event) : bool :=
  match e with peer_disconnected _ _ => true | _ => false end.


Definition accepts (e : event) : bool :=
  match e with
  | connect_request _ accept_result _ => accept_result =? CY_RSLT_SUCCESS
  | _ => false
  end.




(** An edge is accepted as a press when the handler notifies the task. *)
Definition press_accepted (calls : list library_call) : bool :=
  existsb is_notify calls.

(** The bytes of a character array up to its first terminator. *)
Fixpoint c_string (a : list byte) : list byte :=
  match a with
  | [] => []
  | c :: rest => if Byte.eqb c x00 then [] else c :: c_string rest
  end.

(** A successful receive whose text, read as a C string, is the positive
    acknowledgement. *)
Definition acknowledges_on (e : event) : Prop :=
  match e with
  | data_received _ recv_result incoming _ =>
      recv_result = CY_RSLT_SUCCESS /\ c_string incoming = LED_ON_ACK
  | _ => False
  end.

End Runs.

(** ** Inputs used to evaluate the functions *)

(** A client with handle 10 is connected; the mirrored LED state is OFF. *)
Definition sample_connected : globals :=
  set_client_connected true (set_client_handle 10 (@initial_globals sample_config)).

(** The same with the mirrored LED state ON. *)
Definition sample_connected_led_on : globals :=
  set_led_state (@CYBSP_LED_STATE_ON sample_config) sample_connected.

(** The command '1' is pending in the notification slot. *)
Definition sample_pending : task_notification :=
  {| ulNotifiedValue := LED_ON_CMD; notification_pending := true |}.

(** Twenty bytes of stack as the receive buffer finds them. *)
Definition sample_stack : list byte := repeat x00 20.

(** The acknowledgement followed by a NUL byte, as a client that sends the
    terminator of its string does. *)
Definition sample_ack_with_terminator : list byte := LED_ON_ACK ++ [x00].

(** A twenty byte message: it fills the buffer of the sample build. *)
Definition sample_full_message : list byte :=
  list_byte_of_string "LED ON ACK 123456789".

(** Every start-up call succeeds, the first connect attempt included. *)
Definition sample_library : library_answers :=
  {| answer := fun _ => CY_RSLT_SUCCESS;
     connect_answer := fun _ => (CY_RSLT_SUCCESS, 0xC0A80164);
     ipv6_link_local := 0xFE800000000000000000000000000001;
     created_socket := 1 |}.

(** Every start-up call succeeds except the one that sets the TLS
    authentication mode. *)
Definition sample_library_auth_mode_fails : library_answers :=
  {| answer := fun c =>
       match c with
       | call_cy_socket_setsockopt CY_SOCKET_SO_TLS_AUTH_MODE => 0x2180001
       | _ => CY_RSLT_SUCCESS
       end;
     connect_answer := fun _ => (CY_RSLT_SUCCESS, 0xC0A80164);
     ipv6_link_local := 0xFE800000000000000000000000000001;
     created_socket := 1 |}.

(** The variables as a successful start-up of the IPv4 build leaves them:
    the listening socket is 1 and the server address is 192.168.1.100 with
    the port of the build. *)
Definition sample_started_globals : globals :=
  set_server_handle 1
    (set_tcp_server_addr
       {| ip_address := 0xC0A80164;
          ip_version := Some CY_SOCKET_IP_VER_V4;
          port := 50007 |}
       (@initial_globals sample_config)).

(** The started server at the entry of its loop, no notification pending. *)
Definition sample_started : system :=
  {| vars := sample_started_globals; slot := no_notification |}.


(** A client connects, acknowledges, the button is pressed one second after
    start-up and the task takes the command. *)
Definition sample_session : list event :=
  [data_received 10 CY_RSLT_SUCCESS LED_ON_ACK sample_stack;
   button_interrupt true 1000 1000;
   task_turn CY_RSLT_SUCCESS].

(** A client connects and sends the acknowledgement unasked, then the button
    is pressed for the first time. *)
Definition sample_ack_before_press : list event :=
  [connect_request 1 CY_RSLT_SUCCESS 10;
   data_received 10 CY_RSLT_SUCCESS LED_ON_ACK sample_stack;
   button_interrupt true 1000 1000].

(** ** What a run leaves in the variables, read off the events alone *)

Section Event_summaries.
Context `{cfg : BuildConfig}.

(** The connected flag after a list of events: the last accepted connect
    request or disconnect callback decides. *)
Fixpoint connected_after (connected : bool) (es : list event) : bool :=
  match es with
  | [] => connected
  | e :: rest =>
      connected_after
        (if accepts e then true else if is_disconnect e then false else connected)
        rest
  end.

(** The mirrored LED state after a list of events: the last successful
    receive decides, by the C string of its message. *)
Fixpoint led_after (led : bool) (es : list event) : bool :=
  match es with
  | [] => led
  | data_received _ recv_result incoming _ :: rest =>
      led_after
        (if recv_result =? CY_RSLT_SUCCESS then
           if list_eq_dec Byte.byte_eq_dec (c_string incoming) LED_ON_ACK
           then CYBSP_LED_STATE_ON else CYBSP_LED_STATE_OFF
         else led)
        rest
  | _ :: rest => led_after led rest
  end.

(** A pending notification carries one of the two commands. *)
Definition pending_is_command (n : task_notification) : Prop :=
  notification_pending n = true ->
  ulNotifiedValue n = LED_ON_CMD \/ ulNotifiedValue n = LED_OFF_CMD.

Definition is_release (c : library_call) : bool :=
  match c with
  | call_cy_socket_disconnect _ _ | call_cy_socket_delete _ => true
  | _ => false
  end.

End Event_summaries.

(** The link stays down: every connect attempt fails. *)
Definition sample_library_link_down : library_answers :=
  {| answer := fun _ => CY_RSLT_SUCCESS;
     connect_answer := fun _ => (0x2170003, 0);
     ipv6_link_local := 0;
     created_socket := 1 |}.

(** The link comes up on the third attempt. *)
Definition sample_library_third_attempt : library_answers :=
  {| answer := fun _ => CY_RSLT_SUCCESS;
     connect_answer := fun k => if (k <? 2)%nat then (0x2170003, 0)
                                else (CY_RSLT_SUCCESS, 0xC0A80164);
     ipv6_link_local := 0;
     created_socket := 1 |}.

(** Everything succeeds but the bind. *)
Definition sample_library_bind_fails : library_answers :=
  {| answer := fun c =>
       match c with
       | call_cy_socket_bind => 0x2180005
       | _ => CY_RSLT_SUCCESS
       end;
     connect_answer := fun _ => (CY_RSLT_SUCCESS, 0xC0A80164);
     ipv6_link_local := 0;
     created_socket := 1 |}.

(** Everything succeeds but the listen. *)
Definition sample_library_listen_fails : library_answers :=
  {| answer := fun c =>
       match c with
       | call_cy_socket_listen => 0x2180006
       | _ => CY_RSLT_SUCCESS
       end;
     connect_answer := fun _ => (CY_RSLT_SUCCESS, 0xC0A80164);
     ipv6_link_local := 0;
     created_socket := 1 |}.

(** A client connects, the button is pressed and the task sends. *)
Definition sample_press_and_send : list event :=
  [connect_request 1 CY_RSLT_SUCCESS 10;
   button_interrupt true 1000 1000;
   task_turn CY_RSLT_SUCCESS].

(** A client connects, acknowledges, sends something else, disconnects. *)
Definition sample_visit : list event :=
  [connect_request 1 CY_RSLT_SUCCESS 10;
   data_received 10 CY_RSLT_SUCCESS LED_ON_ACK sample_stack;
   data_received 10 CY_RSLT_SUCCESS (list_byte_of_string "LED OFF ACK") sample_stack;
   peer_disconnected 10 CY_RSLT_SUCCESS].

(** What every send of the server must look like: one byte, '0' or '1'. *)
Definition well_formed_send (c : library_call) : Prop :=
  match c with
  | call_cy_socket_send _ payload len =>
      (payload = LED_ON_CMD \/ payload = LED_OFF_CMD) /\ len = TCP_LED_CMD_LEN
  | _ => True
  end.

(** * Properties *)

Section Dispatch_properties.
Context `{cfg : BuildConfig}.

Lemma xTaskNotifyWait_pending (n : task_notification) :
  notification_pending n = true ->
  xTaskNotifyWait n =
    Some (ulNotifiedValue n,
          {| ulNotifiedValue := ulNotifiedValue n; notification_pending := false |}).
Proof. intros Hp. unfold xTaskNotifyWait. rewrite Hp. reflexivity. Qed.

Lemma xTaskNotifyWait_blocks (n : task_notification) :
  notification_pending n = false -> xTaskNotifyWait n = None.
Proof. intros Hp. unfold xTaskNotifyWait. rewrite Hp. reflexivity. Qed.

(** C7.  A turn of the loop of tcp_secure_server_task that finds the
    connected flag false makes no call at all, so cy_socket_send is not
    invoked and nothing is printed, and leaves every variable of the file as
    it was: the command taken from the notification is dropped. *)
Theorem C7_command_discarded_when_idle
    (g : globals) (n : task_notification) (send_result : cy_rslt_t) :
  client_connected g = false ->
  notification_pending n = true ->
  server_task_loop_body g n send_result =
    Some (g, {| ulNotifiedValue := ulNotifiedValue n; notification_pending := false |}, []).
Proof.
  intros Hidle Hpending.
  unfold server_task_loop_body.
  rewrite (xTaskNotifyWait_pending n Hpending), Hidle.
  reflexivity.
Qed.

(** The send is issued exactly when the flag is set. *)
Lemma loop_body_sends_iff_connected
    (g g' : globals) (n n' : task_notification) (send_result : cy_rslt_t)
    (calls : list library_call) :
  server_task_loop_body g n send_result = Some (g', n', calls) ->
  existsb is_send calls = client_connected g.
Proof.
  unfold server_task_loop_body.
  destruct (xTaskNotifyWait n) as [[cmd m]|]; [|discriminate].
  destruct (client_connected g).
  - destruct (CY_RSLT_SUCCESS =? send_result).
    + destruct (LED_ON_CMD =? cmd); intros H; injection H as <- <- <-; reflexivity.
    + destruct (CY_RSLT_MODULE_SECURE_SOCKETS_CLOSED =? send_result);
        intros H; injection H as <- <- <-; reflexivity.
  - intros H; injection H as <- <- <-; reflexivity.
Qed.

(** No path of the loop body writes a variable of the file. *)
Lemma loop_body_keeps_globals
    (g g' : globals) (n n' : task_notification) (send_result : cy_rslt_t)
    (calls : list library_call) :
  server_task_loop_body g n send_result = Some (g', n', calls) -> g' = g.
Proof.
  unfold server_task_loop_body.
  destruct (xTaskNotifyWait n) as [[cmd m]|]; [|discriminate].
  destruct (client_connected g);
    [destruct (CY_RSLT_SUCCESS =? send_result);
       [destruct (LED_ON_CMD =? cmd)
       |destruct (CY_RSLT_MODULE_SECURE_SOCKETS_CLOSED =? send_result)]|];
    intros H; injection H as <- _ _; reflexivity.
Qed.

(** C1.  On the closed-peer error the receive callback and the loop of the
    task both call cy_socket_disconnect and cy_socket_delete on the client
    handle, and both return the variables of the file unchanged: a connected
    flag that was true is still true afterwards, so the state is not Idle. *)
Theorem C1_peer_closed_leaves_connected_flag
    (g : globals) (socket_handle : cy_socket_t) (incoming message_buffer : list byte)
    (n : task_notification) :
  CY_RSLT_MODULE_SECURE_SOCKETS_CLOSED <> CY_RSLT_SUCCESS ->
  client_connected g = true ->
  notification_pending n = true ->
  (exists g' calls,
      tcp_receive_msg_handler g socket_handle CY_RSLT_MODULE_SECURE_SOCKETS_CLOSED
        incoming message_buffer
      = Returned g' calls CY_RSLT_MODULE_SECURE_SOCKETS_CLOSED /\
      In (call_cy_socket_disconnect socket_handle RESET_VAL) calls /\
      In (call_cy_socket_delete socket_handle) calls /\
      client_connected g' = true) /\
  (exists g' n' calls,
      server_task_loop_body g n CY_RSLT_MODULE_SECURE_SOCKETS_CLOSED
      = Some (g', n', calls) /\
      In (call_cy_socket_disconnect (client_handle g) RESET_VAL) calls /\
      In (call_cy_socket_delete (client_handle g)) calls /\
      client_connected g' = true).
Proof.
  intros Herr Hconn Hpending.
  assert (Hne : (CY_RSLT_MODULE_SECURE_SOCKETS_CLOSED =? CY_RSLT_SUCCESS) = false)
    by (apply Z.eqb_neq; exact Herr).
  assert (Hne' : (CY_RSLT_SUCCESS =? CY_RSLT_MODULE_SECURE_SOCKETS_CLOSED) = false)
    by (rewrite Z.eqb_sym; exact Hne).
  split.
  - unfold tcp_receive_msg_handler. rewrite Hne, Z.eqb_refl.
    eexists; eexists. split; [reflexivity|].
    split; [|split]; [simpl; tauto | simpl; tauto | exact Hconn].
  - unfold server_task_loop_body.
    rewrite (xTaskNotifyWait_pending n Hpending), Hconn, Hne', Z.eqb_refl.
    eexists; eexists; eexists. split; [reflexivity|].
    split; [|split]; [simpl; tauto | simpl; tauto | exact Hconn].
Qed.

(** The only entry point that clears the flag is the disconnect callback. *)
Lemma tcp_disconnection_handler_clears_flag
    (g : globals) (h : cy_socket_t) (r : cy_rslt_t) :
  client_connected (fst (fst (tcp_disconnection_handler g h r))) = false.
Proof. reflexivity. Qed.

(** A message that fills the buffer makes the handler store outside it. *)
Lemma full_buffer_store_out_of_bounds
    (g : globals) (socket_handle : cy_socket_t) (incoming message_buffer : list byte) :
  (MAX_TCP_RECV_BUFFER_SIZE <= List.length incoming)%nat ->
  tcp_receive_msg_handler g socket_handle CY_RSLT_SUCCESS incoming message_buffer
  = OutOfBoundsStore MAX_TCP_RECV_BUFFER_SIZE.
Proof.
  intros Hfull.
  unfold tcp_receive_msg_handler, array_store.
  rewrite Z.eqb_refl.
  rewrite (firstn_length_le incoming Hfull).
  rewrite Nat.ltb_irrefl.
  reflexivity.
Qed.

(** C2.  When cy_socket_recv fills the buffer, the index of the terminator
    store is the capacity itself, one past the last element, so it is not
    below the capacity and the store leaves the array. *)
Theorem C2_terminator_store_at_capacity
    (g : globals) (socket_handle : cy_socket_t) (incoming message_buffer : list byte) :
  (MAX_TCP_RECV_BUFFER_SIZE <= List.length incoming)%nat ->
  tcp_receive_msg_handler g socket_handle CY_RSLT_SUCCESS incoming message_buffer
  = OutOfBoundsStore MAX_TCP_RECV_BUFFER_SIZE /\
  ~ (List.length (firstn MAX_TCP_RECV_BUFFER_SIZE incoming)
       < MAX_TCP_RECV_BUFFER_SIZE)%nat.
Proof.
  intros Hfull. split.
  - apply full_buffer_store_out_of_bounds. exact Hfull.
  - rewrite (firstn_length_le incoming Hfull). lia.
Qed.

(** A shorter message is terminated inside the array, at its own length. *)
Lemma terminator_store_in_bounds (incoming message_buffer : list byte) :
  (List.length incoming < MAX_TCP_RECV_BUFFER_SIZE)%nat ->
  array_store MAX_TCP_RECV_BUFFER_SIZE
    (recv_into MAX_TCP_RECV_BUFFER_SIZE incoming message_buffer)
    (List.length (firstn MAX_TCP_RECV_BUFFER_SIZE incoming)) NULL_CHARACTER
  = Some (incoming ++ NULL_CHARACTER ::
            skipn (S (List.length incoming))
              (recv_into MAX_TCP_RECV_BUFFER_SIZE incoming message_buffer)).
Proof.
  intros Hshort.
  assert (Hall : firstn MAX_TCP_RECV_BUFFER_SIZE incoming = incoming)
    by (apply firstn_all2; lia).
  unfold array_store. rewrite Hall.
  apply Nat.ltb_lt in Hshort. rewrite Hshort.
  f_equal. f_equal.
  unfold recv_into. rewrite Hall.
  rewrite firstn_app, firstn_all, Nat.sub_diag. simpl.
  apply app_nil_r.
Qed.

End Dispatch_properties.

Section Receive_properties.
Context `{cfg : BuildConfig}.

Lemma byte_to_N_inj (a b : byte) : Byte.to_N a = Byte.to_N b -> a = b.
Proof.
  intros Hab.
  pose proof (Byte.of_to_N a) as Ha.
  rewrite Hab, Byte.of_to_N in Ha.
  congruence.
Qed.

Lemma byte_difference_nonzero (a b : byte) :
  a <> b -> Z.of_N (Byte.to_N a) - Z.of_N (Byte.to_N b) <> 0.
Proof.
  intros Hab Hz. apply Hab, byte_to_N_inj. lia.
Qed.

Lemma byte_eqb_reflect (a b : byte) : reflect (a = b) (Byte.eqb a b).
Proof.
  destruct (Byte.eqb a b) eqn:E; constructor.
  - apply Byte.byte_dec_bl; exact E.
  - apply Byte.eqb_false; exact E.
Qed.

Lemma LED_ON_ACK_has_no_terminator : Forall (fun c => c <> x00) LED_ON_ACK.
Proof. repeat constructor; discriminate. Qed.

(** [strcmp] of a terminated array against a terminated literal is 0 exactly
    when the array's C string is the literal; what follows the first
    terminator of the array is not looked at. *)
Lemma strcmp_terminated (d rest lit : list byte) :
  Forall (fun c => c <> x00) lit ->
  strcmp (d ++ x00 :: rest) (lit ++ [x00]) = 0 <-> c_string d = lit.
Proof.
  revert lit. induction d as [|a d IH]; intros lit Hlit.
  - destruct lit as [|c lit]; simpl.
    + tauto.
    + inversion Hlit as [|? ? Hc Hrest]; subst.
      destruct (byte_eqb_reflect x00 c) as [E|E]; [congruence|].
      split; [|discriminate].
      intros Hz. exfalso. apply (byte_difference_nonzero x00 c E). exact Hz.
  - destruct lit as [|c lit]; simpl.
    + destruct (byte_eqb_reflect a x00) as [E|E]; [tauto|].
      split; [|discriminate].
      intros Hz. exfalso. apply (byte_difference_nonzero a x00 E). exact Hz.
    + inversion Hlit as [|? ? Hc Hrest]; subst.
      destruct (byte_eqb_reflect a c) as [E|E].
      * subst a.
        destruct (byte_eqb_reflect c x00) as [E0|E0]; [congruence|].
        rewrite (IH lit Hrest).
        split; [intros ->; reflexivity | intros H; injection H; auto].
      * split.
        -- intros Hz. exfalso. apply (byte_difference_nonzero a c E). exact Hz.
        -- destruct (Byte.eqb a x00); [discriminate|].
           intros H; injection H as Hac _. contradiction.
Qed.

(** A successful receive of a message shorter than the buffer returns, and
    the LED variable then says whether the C string of the message is the
    literal of the comparison. *)
Lemma receive_sets_led
    (g : globals) (socket_handle : cy_socket_t) (incoming message_buffer : list byte) :
  (List.length incoming < MAX_TCP_RECV_BUFFER_SIZE)%nat ->
  exists calls,
    tcp_receive_msg_handler g socket_handle CY_RSLT_SUCCESS incoming message_buffer
    = Returned
        (set_led_state
           (if list_eq_dec Byte.byte_eq_dec (c_string incoming) LED_ON_ACK
            then CYBSP_LED_STATE_ON else CYBSP_LED_STATE_OFF) g)
        calls CY_RSLT_SUCCESS.
Proof.
  intros Hshort.
  unfold tcp_receive_msg_handler.
  rewrite Z.eqb_refl.
  rewrite (terminator_store_in_bounds incoming message_buffer Hshort).
  eexists.
  pose proof (strcmp_terminated incoming
    (skipn (S (List.length incoming))
       (recv_into MAX_TCP_RECV_BUFFER_SIZE incoming message_buffer))
    LED_ON_ACK LED_ON_ACK_has_no_terminator) as Hcmp.
  unfold NULL_CHARACTER, LED_ON_ACK_literal, RESET_VAL.
  destruct (list_eq_dec Byte.byte_eq_dec (c_string incoming) LED_ON_ACK) as [E|E].
  - apply Hcmp in E. rewrite E. reflexivity.
  - destruct (Z.eqb_spec
      (strcmp (incoming ++ x00 ::
         skipn (S (List.length incoming))
           (recv_into MAX_TCP_RECV_BUFFER_SIZE incoming message_buffer))
         (LED_ON_ACK ++ [x00])) 0) as [Hz|Hz].
    + apply Hcmp in Hz. contradiction.
    + reflexivity.
Qed.

Lemma LED_levels_differ : CYBSP_LED_STATE_ON <> CYBSP_LED_STATE_OFF.
Proof. unfold CYBSP_LED_STATE_OFF. destruct CYBSP_LED_STATE_ON; discriminate. Qed.

(** C6, as amended.  A successful receive of a message shorter than the
    buffer sets the mirrored LED state to ON if and only if the bytes of the
    message before its first NUL byte (all of them when it has none) are
    exactly those of LED ON ACK, and to OFF otherwise; the comparison is by
    strcmp, so it is case-sensitive and trims nothing, and it does not see
    what follows a NUL byte. *)
Theorem C6_led_on_iff_c_string_is_ack
    (g : globals) (socket_handle : cy_socket_t) (incoming message_buffer : list byte) :
  (List.length incoming < MAX_TCP_RECV_BUFFER_SIZE)%nat ->
  exists g' calls,
    tcp_receive_msg_handler g socket_handle CY_RSLT_SUCCESS incoming message_buffer
    = Returned g' calls CY_RSLT_SUCCESS /\
    (led_state g' = CYBSP_LED_STATE_ON <-> c_string incoming = LED_ON_ACK) /\
    (led_state g' = CYBSP_LED_STATE_OFF <-> c_string incoming <> LED_ON_ACK).
Proof.
  intros Hshort.
  destruct (receive_sets_led g socket_handle incoming message_buffer Hshort)
    as [calls Hret].
  eexists; exists calls. split; [exact Hret|].
  pose proof LED_levels_differ as Hdiff.
  simpl.
  destruct (list_eq_dec Byte.byte_eq_dec (c_string incoming) LED_ON_ACK) as [E|E].
  - split; split; try tauto; try congruence.
  - split; split; try tauto; try congruence.
Qed.

(** The two near misses of the specification, when they fit the buffer. *)
Lemma trailing_space_and_lower_case_are_off
    (g : globals) (socket_handle : cy_socket_t) (message_buffer : list byte)
    (incoming : list byte) :
  incoming = list_byte_of_string "LED ON ACK " \/
  incoming = list_byte_of_string "led on ack" ->
  (List.length incoming < MAX_TCP_RECV_BUFFER_SIZE)%nat ->
  exists calls,
    tcp_receive_msg_handler g socket_handle CY_RSLT_SUCCESS incoming message_buffer
    = Returned (set_led_state CYBSP_LED_STATE_OFF g) calls CY_RSLT_SUCCESS.
Proof.
  intros Hin Hshort.
  destruct (receive_sets_led g socket_handle incoming message_buffer Hshort)
    as [calls Hret].
  exists calls. rewrite Hret.
  destruct (list_eq_dec Byte.byte_eq_dec (c_string incoming) LED_ON_ACK) as [E|E];
    [|reflexivity].
  destruct Hin as [-> | ->]; vm_compute in E; discriminate.
Qed.

End Receive_properties.

Section Startup_properties.
Context `{cfg : BuildConfig}.

Ltac earlier_calls_succeed Hpre :=
  repeat match goal with
  | |- context [answer ?lib ?c] =>
      let E := fresh "E" in
      assert (E : answer lib c = CY_RSLT_SUCCESS)
        by (apply Hpre; [simpl; tauto | discriminate]);
      rewrite E; clear E
  end.

Ltac failing_call Hfail :=
  match type of Hfail with
  | answer ?lib ?c <> _ =>
      let E := fresh "E" in
      let E' := fresh "E" in
      assert (E : (answer lib c =? CY_RSLT_SUCCESS) = false)
        by (apply Z.eqb_neq; exact Hfail);
      assert (E' : (CY_RSLT_SUCCESS =? answer lib c) = false)
        by (rewrite Z.eqb_sym; exact E);
      rewrite ?E, ?E'; reflexivity
  end.

(** The calls of create_secure_tcp_server_socket are an initial part of
    [setup_order]: no step runs before an earlier one or twice. *)
Lemma setup_calls_in_order (lib : library_answers) (g : globals) :
  exists k, snd (fst (create_secure_tcp_server_socket lib g)) = firstn k setup_order.
Proof.
  unfold create_secure_tcp_server_socket.
  destruct (negb (CY_RSLT_SUCCESS =? answer lib call_cy_socket_create));
    [exists 1%nat; reflexivity|].
  destruct (negb (CY_RSLT_SUCCESS =?
      answer lib (call_cy_socket_setsockopt CY_SOCKET_SO_RCVTIMEO)));
    [exists 2%nat; reflexivity|].
  destruct (negb (answer lib
      (call_cy_socket_setsockopt CY_SOCKET_SO_CONNECT_REQUEST_CALLBACK) =? CY_RSLT_SUCCESS));
    [exists 3%nat; reflexivity|].
  destruct (negb (CY_RSLT_SUCCESS =?
      answer lib (call_cy_socket_setsockopt CY_SOCKET_SO_RECEIVE_CALLBACK)));
    [exists 4%nat; reflexivity|].
  destruct (negb (CY_RSLT_SUCCESS =?
      answer lib (call_cy_socket_setsockopt CY_SOCKET_SO_DISCONNECT_CALLBACK)));
    [exists 5%nat; reflexivity|].
  destruct (negb (CY_RSLT_SUCCESS =?
      answer lib (call_cy_socket_setsockopt CY_SOCKET_SO_TLS_IDENTITY)));
    [exists 6%nat; reflexivity|].
  exists 8%nat; reflexivity.
Qed.

(** Every step whose result the function tests ends the set-up when it
    fails: the failing call is the last one made and its result is the
    result of the function.  The authentication-mode option is the one call
    whose result is not tested. *)
Lemma setup_checked_step_aborts
    (lib : library_answers) (g : globals)
    (before after : list startup_call) (c : startup_call) :
  setup_order = before ++ c :: after ->
  c <> call_cy_socket_setsockopt CY_SOCKET_SO_TLS_AUTH_MODE ->
  (forall c', In c' before ->
     c' <> call_cy_socket_setsockopt CY_SOCKET_SO_TLS_AUTH_MODE ->
     answer lib c' = CY_RSLT_SUCCESS) ->
  answer lib c <> CY_RSLT_SUCCESS ->
  snd (fst (create_secure_tcp_server_socket lib g)) = before ++ [c] /\
  snd (create_secure_tcp_server_socket lib g) = answer lib c.
Proof.
  intros Hsplit Hchecked Hpre Hfail.
  unfold setup_order in Hsplit.
  do 8 (destruct before as [|? before];
        [ simpl in Hsplit; injection Hsplit as <- <-;
          try (exfalso; apply Hchecked; reflexivity);
          unfold create_secure_tcp_server_socket;
          earlier_calls_succeed Hpre;
          rewrite ?Z.eqb_refl;
          split; failing_call Hfail
        | simpl in Hsplit; injection Hsplit as <- Hsplit ]).
  destruct before; discriminate.
Qed.

(** C4.  When every call of the set-up succeeds except the one that sets the
    TLS authentication mode to required, create_secure_tcp_server_socket
    still goes on to bind and returns success: the failure of that step
    neither ends the set-up nor reaches the caller. *)
Theorem C4_auth_mode_failure_not_surfaced (lib : library_answers) (g : globals) :
  (forall c, c <> call_cy_socket_setsockopt CY_SOCKET_SO_TLS_AUTH_MODE ->
     answer lib c = CY_RSLT_SUCCESS) ->
  answer lib (call_cy_socket_setsockopt CY_SOCKET_SO_TLS_AUTH_MODE) <> CY_RSLT_SUCCESS ->
  create_secure_tcp_server_socket lib g
  = (set_server_handle (created_socket lib) g, setup_order, CY_RSLT_SUCCESS).
Proof.
  intros Hothers Hauth.
  unfold create_secure_tcp_server_socket.
  repeat match goal with
  | |- context [answer ?l ?c] =>
      let E := fresh "E" in
      assert (E : answer l c = CY_RSLT_SUCCESS) by (apply Hothers; discriminate);
      rewrite E; clear E
  end.
  rewrite Z.eqb_refl. reflexivity.
Qed.

End Startup_properties.

Section Bring_up_properties.
Context `{cfg : BuildConfig}.

(** The loop, one turn at a time. *)
Lemma connect_loop_turn (lib : library_answers) (g : globals) (retry_count : nat) :
  connect_loop lib g retry_count =
    if negb (fst (connect_answer lib retry_count) =? CY_RSLT_SUCCESS) then
      if (MAX_ETH_RETRY_COUNT <=? S retry_count)%nat
      then (g, [call_cy_ecm_connect], fst (connect_answer lib retry_count))
      else let '(g', t, result) := connect_loop lib g (S retry_count) in
           (g', call_cy_ecm_connect :: t, result)
    else let '(g', t, result) :=
           record_address lib g (snd (connect_answer lib retry_count)) in
         (g', call_cy_ecm_connect :: t, result).
Proof.
  funelim (connect_loop lib g retry_count);
    repeat match goal with
    | E : negb _ = _ |- _ => rewrite E
    | E : (_ <=? _)%nat = _ |- _ => rewrite E
    end; reflexivity.
Qed.

Lemma record_address_makes_no_attempt (lib : library_answers) (g : globals) (ip : Z) :
  filter is_connect_attempt (trace_of (record_address lib g ip)) = [].
Proof.
  unfold record_address, trace_of.
  destruct USE_IPV6_ADDRESS; [|reflexivity].
  destruct (answer lib call_cy_ecm_get_ipv6_address =? CY_RSLT_SUCCESS); reflexivity.
Qed.

(** With [retry_count] failures behind it the loop makes at most
    [MAX_ETH_RETRY_COUNT - retry_count] further attempts. *)
Lemma connect_loop_attempts (lib : library_answers) (g : globals) (left : nat) :
  forall retry_count,
    (retry_count + left = MAX_ETH_RETRY_COUNT)%nat -> (0 < left)%nat ->
    (1 <= List.length (filter is_connect_attempt
                         (trace_of (connect_loop lib g retry_count))) <= left)%nat.
Proof.
  induction left as [|left IH]; intros retry_count Hsum Hpos; [lia|].
  rewrite connect_loop_turn.
  destruct (negb (fst (connect_answer lib retry_count) =? CY_RSLT_SUCCESS)).
  - destruct (Nat.leb_spec MAX_ETH_RETRY_COUNT (S retry_count)) as [Hlast|Hmore].
    + simpl. lia.
    + specialize (IH (S retry_count)).
      destruct (connect_loop lib g (S retry_count)) as [[g' t] result].
      unfold trace_of in *. simpl in *. lia.
  - pose proof (record_address_makes_no_attempt lib g
                  (snd (connect_answer lib retry_count))) as Hnone.
    destruct (record_address lib g (snd (connect_answer lib retry_count)))
      as [[g' t] result].
    unfold trace_of in *. simpl in *. rewrite Hnone. simpl. lia.
Qed.

(** connect_to_ethernet calls cy_ecm_connect at most three times. *)
Lemma connect_to_ethernet_at_most_three_attempts (lib : library_answers) (g : globals) :
  (List.length (filter is_connect_attempt (fst (connect_to_ethernet lib g))) <= 3)%nat.
Proof.
  pose proof (connect_loop_attempts lib g 3 0%nat eq_refl ltac:(lia)) as Hloop.
  unfold connect_to_ethernet, call, when, handle_app_error, bind, ret.
  destruct (negb (answer lib call_cy_ecm_init =? CY_RSLT_SUCCESS)); [simpl; lia|].
  destruct (negb (answer lib call_cy_ecm_ethif_init =? CY_RSLT_SUCCESS)); [simpl; lia|].
  destruct (connect_loop lib g 0) as [[g' t] result].
  unfold trace_of in Hloop. simpl in *. lia.
Qed.

Lemma failed_attempt (lib : library_answers) (k : nat) :
  fst (connect_answer lib k) <> CY_RSLT_SUCCESS ->
  negb (fst (connect_answer lib k) =? CY_RSLT_SUCCESS) = true.
Proof. intros H. apply Z.eqb_neq in H. rewrite H. reflexivity. Qed.

Lemma successful_attempt (lib : library_answers) (k : nat) :
  fst (connect_answer lib k) = CY_RSLT_SUCCESS ->
  negb (fst (connect_answer lib k) =? CY_RSLT_SUCCESS) = false.
Proof. intros H. rewrite H. reflexivity. Qed.

(** Three failures in a row: the loop returns the last error and has not
    touched the server address. *)
Lemma connect_loop_exhausted (lib : library_answers) (g : globals) :
  (forall k, (k < 3)%nat -> fst (connect_answer lib k) <> CY_RSLT_SUCCESS) ->
  connect_loop lib g 0 =
    (g, [call_cy_ecm_connect; call_cy_ecm_connect; call_cy_ecm_connect],
     fst (connect_answer lib 2)).
Proof.
  intros Hfail.
  rewrite connect_loop_turn, (failed_attempt lib 0 (Hfail 0%nat ltac:(lia))).
  rewrite connect_loop_turn, (failed_attempt lib 1 (Hfail 1%nat ltac:(lia))).
  rewrite connect_loop_turn, (failed_attempt lib 2 (Hfail 2%nat ltac:(lia))).
  reflexivity.
Qed.

(** The caller: when the three attempts fail, the task enters
    handle_app_error before any call to the socket layer. *)
Lemma startup_halts_when_retries_exhausted (lib : library_answers) (g : globals) :
  (forall k, (k < 3)%nat -> fst (connect_answer lib k) <> CY_RSLT_SUCCESS) ->
  snd (server_task_startup lib g) = None /\
  existsb is_socket_call (fst (server_task_startup lib g)) = false.
Proof.
  intros Hfail.
  pose proof (Hfail 2%nat ltac:(lia)) as Hlast. apply Z.eqb_neq in Hlast.
  unfold server_task_startup, connect_to_ethernet, call, when, handle_app_error,
    bind, ret.
  rewrite (connect_loop_exhausted lib g Hfail).
  destruct (negb (0 =? answer lib call_Cy_SysInt_Init)); [split; reflexivity|].
  destruct (negb (answer lib call_cy_ecm_init =? CY_RSLT_SUCCESS)); [split; reflexivity|].
  destruct (negb (answer lib call_cy_ecm_ethif_init =? CY_RSLT_SUCCESS));
    [split; reflexivity|].
  simpl. rewrite Hlast. split; reflexivity.
Qed.

(** In the IPv4 build the first successful attempt ends the loop and stores
    the assigned address, the version and the port. *)
Lemma connect_loop_ipv4_records_address
    (lib : library_answers) (g : globals) (k : nat) :
  USE_IPV6_ADDRESS = false ->
  (k < 3)%nat ->
  (forall j, (j < k)%nat -> fst (connect_answer lib j) <> CY_RSLT_SUCCESS) ->
  fst (connect_answer lib k) = CY_RSLT_SUCCESS ->
  connect_loop lib g 0 =
    (set_tcp_server_addr
       {| ip_address := snd (connect_answer lib k);
          ip_version := Some CY_SOCKET_IP_VER_V4;
          port := TCP_SERVER_PORT |} g,
     repeat call_cy_ecm_connect (S k),
     CY_RSLT_SUCCESS).
Proof.
  intros Hv4 Hk Hbefore Hok.
  destruct k as [|[|[|k]]]; [| | |lia].
  - rewrite connect_loop_turn, (successful_attempt lib 0 Hok).
    unfold record_address. rewrite Hv4. reflexivity.
  - rewrite connect_loop_turn, (failed_attempt lib 0 (Hbefore 0%nat ltac:(lia))).
    rewrite connect_loop_turn, (successful_attempt lib 1 Hok).
    unfold record_address. rewrite Hv4. reflexivity.
  - rewrite connect_loop_turn, (failed_attempt lib 0 (Hbefore 0%nat ltac:(lia))).
    rewrite connect_loop_turn, (failed_attempt lib 1 (Hbefore 1%nat ltac:(lia))).
    rewrite connect_loop_turn, (successful_attempt lib 2 Hok).
    unfold record_address. rewrite Hv4. reflexivity.
Qed.

(** C5.  In the build with USE_IPV6_ADDRESS set, a first attempt that
    succeeds ends the loop, and connect_to_ethernet returns success with the
    version and the port stored, but the address member of tcp_server_addr
    is the one it had on entry: the link-local address that
    cy_ecm_get_ipv6_address reported is not recorded. *)
Theorem C5_ipv6_address_not_recorded (lib : library_answers) (g : globals) :
  USE_IPV6_ADDRESS = true ->
  answer lib call_cy_ecm_init = CY_RSLT_SUCCESS ->
  answer lib call_cy_ecm_ethif_init = CY_RSLT_SUCCESS ->
  fst (connect_answer lib 0) = CY_RSLT_SUCCESS ->
  answer lib call_cy_ecm_get_ipv6_address = CY_RSLT_SUCCESS ->
  connect_to_ethernet lib g =
    ([call_cy_ecm_init; call_cy_ecm_ethif_init; call_cy_ecm_connect;
      call_cy_ecm_get_ipv6_address],
     Some (set_tcp_server_addr
             {| ip_address := ip_address (tcp_server_addr g);
                ip_version := Some CY_SOCKET_IP_VER_V6;
                port := TCP_SERVER_PORT |} g,
           CY_RSLT_SUCCESS)).
Proof.
  intros Hv6 Hinit Hethif Hok Hget.
  unfold connect_to_ethernet, call, when, handle_app_error, bind, ret.
  rewrite Hinit, Hethif.
  rewrite connect_loop_turn, (successful_attempt lib 0 Hok).
  unfold record_address. rewrite Hv6, Hget.
  reflexivity.
Qed.

End Bring_up_properties.

Section Signal_properties.
Context `{cfg : BuildConfig}.

(** The producer never blocks and never fails to answer: it is a total
    function of the slot.  On a slot with a pending value it changes
    nothing. *)
Lemma notify_without_overwrite_pending (n : task_notification) (v : Z) :
  notification_pending n = true ->
  xTaskNotifyFromISR n v eSetValueWithoutOverwrite = (n, false).
Proof. intros Hp. unfold xTaskNotifyFromISR. rewrite Hp. reflexivity. Qed.

Lemma notify_without_overwrite_free (n : task_notification) (v : Z) :
  notification_pending n = false ->
  xTaskNotifyFromISR n v eSetValueWithoutOverwrite =
    ({| ulNotifiedValue := uint32 v; notification_pending := true |}, true).
Proof. intros Hp. unfold xTaskNotifyFromISR. rewrite Hp. reflexivity. Qed.

(** Whatever the handler does to the variables, a slot with a pending value
    leaves it as it was. *)
Lemma handler_keeps_pending_slot
    (g : globals) (n : task_notification) (btn1_status : bool) (t1 t2 : Z) :
  notification_pending n = true ->
  snd (fst (user_button_interrupt_handler g n btn1_status t1 t2)) = n.
Proof.
  intros Hp. unfold user_button_interrupt_handler.
  destruct btn1_status; [|reflexivity].
  destruct (negb (button_debouncing g)) eqn:Earmed.
  - destruct (debounce_elapsed t1 (button_debounce_timestamp g)).
    + simpl. rewrite Hp. reflexivity.
    + apply negb_true_iff in Earmed. rewrite Earmed. reflexivity.
  - apply negb_false_iff in Earmed. rewrite Earmed. simpl.
    rewrite Hp. reflexivity.
Qed.

(** C3, as amended.  A notification made by the interrupt handler while an
    earlier one is pending and unconsumed does not block and does not
    replace the pending value: the handler notifies with
    eSetValueWithoutOverwrite, the new value is dropped, and the next wait
    of the task observes the value that was pending. *)
Theorem C3_pending_value_is_kept
    (g : globals) (n : task_notification) (btn1_status : bool) (t1 t2 : Z) (v : Z) :
  notification_pending n = true ->
  xTaskNotifyFromISR n v eSetValueWithoutOverwrite = (n, false) /\
  xTaskNotifyWait (snd (fst (user_button_interrupt_handler g n btn1_status t1 t2)))
  = Some (ulNotifiedValue n,
          {| ulNotifiedValue := ulNotifiedValue n; notification_pending := false |}).
Proof.
  intros Hp. split.
  - apply notify_without_overwrite_pending. exact Hp.
  - rewrite (handler_keeps_pending_slot g n btn1_status t1 t2 Hp).
    apply xTaskNotifyWait_pending. exact Hp.
Qed.

(** A notification on a free slot is seen once by the next wait, which
    frees the slot again. *)
Lemma signal_on_free_slot_seen_once (n : task_notification) (v : Z) :
  notification_pending n = false ->
  exists n', xTaskNotifyWait (fst (xTaskNotifyFromISR n v eSetValueWithoutOverwrite))
             = Some (uint32 v, n') /\ xTaskNotifyWait n' = None.
Proof.
  intros Hp. rewrite notify_without_overwrite_free by exact Hp.
  eexists. split; reflexivity.
Qed.

End Signal_properties.

Section Debounce_properties.
Context `{cfg : BuildConfig}.

(** The handler with the flag clear on entry: the test of the elapsed time
    decides everything. *)
Lemma handler_when_armed
    (g : globals) (n : task_notification) (t1 t2 : Z) :
  button_debouncing g = false ->
  user_button_interrupt_handler g n true t1 t2 =
    if debounce_elapsed t1 (button_debounce_timestamp g) then
      (set_button_debouncing false
         (set_button_debounce_timestamp (tick_time_ms t2)
            (set_button_debouncing true g)),
       fst (xTaskNotifyFromISR n
              (if Bool.eqb CYBSP_LED_STATE_ON (led_state g)
               then LED_OFF_CMD else LED_ON_CMD)
              eSetValueWithoutOverwrite),
       [call_xTaskNotifyFromISR
          (if Bool.eqb CYBSP_LED_STATE_ON (led_state g)
           then LED_OFF_CMD else LED_ON_CMD)])
    else (g, n, []).
Proof.
  intros Harmed. unfold user_button_interrupt_handler. rewrite Harmed. simpl.
  destruct (debounce_elapsed t1 (button_debounce_timestamp g)).
  - reflexivity.
  - rewrite Harmed. reflexivity.
Qed.

(** The handler never leaves the flag set when it found it clear. *)
Lemma handler_keeps_flag_clear
    (g : globals) (n : task_notification) (btn1_status : bool) (t1 t2 : Z) :
  button_debouncing g = false ->
  button_debouncing (fst (fst (user_button_interrupt_handler g n btn1_status t1 t2)))
  = false.
Proof.
  intros Harmed. destruct btn1_status.
  - rewrite handler_when_armed by exact Harmed.
    destruct (debounce_elapsed t1 (button_debounce_timestamp g));
      [reflexivity | exact Harmed].
  - exact Harmed.
Qed.

Lemma step_keeps_flag_clear (s s' : system) (e : event) (calls : list library_call) :
  step s e = Some (s', calls) ->
  button_debouncing (vars s) = false ->
  button_debouncing (vars s') = false.
Proof.
  intros Hstep Harmed. destruct e; simpl in Hstep.
  - pose proof (handler_keeps_flag_clear (vars s) (slot s) btn1_status
                  tick_at_test tick_at_record Harmed) as Hkeep.
    destruct (user_button_interrupt_handler (vars s) (slot s) btn1_status
                tick_at_test tick_at_record) as [[g n] c].
    injection Hstep as <- _. exact Hkeep.
  - unfold tcp_connection_handler in Hstep.
    destruct (accept_result =? CY_RSLT_SUCCESS);
      injection Hstep as <- _; exact Harmed.
  - unfold tcp_receive_msg_handler in Hstep.
    destruct (recv_result =? CY_RSLT_SUCCESS).
    + destruct (array_store _ _ _ _); [|discriminate].
      destruct (strcmp _ _ =? RESET_VAL); injection Hstep as <- _; exact Harmed.
    + destruct (CY_RSLT_MODULE_SECURE_SOCKETS_CLOSED =? recv_result);
        injection Hstep as <- _; exact Harmed.
  - injection Hstep as <- _. exact Harmed.
  - destruct (server_task_loop_body (vars s) (slot s) send_result)
      as [[[g n] c]|] eqn:Hbody; [|discriminate].
    apply loop_body_keeps_globals in Hbody. subst g.
    injection Hstep as <- _. exact Harmed.
Qed.

Lemma run_keeps_flag_clear (es : list event) :
  forall (s s' : system) (calls : list library_call),
    run s es = Some (s', calls) ->
    button_debouncing (vars s) = false ->
    button_debouncing (vars s') = false.
Proof.
  induction es as [|e es IH]; intros s s' calls Hrun Harmed; simpl in Hrun.
  - injection Hrun as <- _. exact Harmed.
  - destruct (step s e) as [[s1 c1]|] eqn:Hstep; [|discriminate].
    destruct (run s1 es) as [[s2 c2]|] eqn:Hrest; [|discriminate].
    injection Hrun as <- _.
    apply (IH s1 s2 c2 Hrest).
    apply (step_keeps_flag_clear s s1 e c1 Hstep Harmed).
Qed.

(** For any tick period the window of the test is
    [DEBOUNCE_TIME_MS * portTICK_PERIOD_MS] milliseconds. *)
Lemma press_accepted_iff_elapsed
    (g : globals) (n : task_notification) (btn1_status : bool) (t1 t2 : Z) :
  button_debouncing g = false ->
  press_accepted (snd (user_button_interrupt_handler g n btn1_status t1 t2)) = true
  <-> btn1_status = true /\
      uint32 (DEBOUNCE_TIME_MS * portTICK_PERIOD_MS)
        <= uint32 (tick_time_ms t1 - button_debounce_timestamp g).
Proof.
  intros Harmed.
  destruct btn1_status.
  - rewrite handler_when_armed by exact Harmed.
    unfold debounce_elapsed.
    destruct (Z.leb_spec (uint32 (DEBOUNCE_TIME_MS * portTICK_PERIOD_MS))
                (uint32 (tick_time_ms t1 - button_debounce_timestamp g)))
      as [Hle|Hlt].
    + split; [intros _; split; [reflexivity | exact Hle] | intros _; reflexivity].
    + split; [simpl; discriminate | intros [_ H]; lia].
  - simpl. split; [discriminate | intros [H _]; discriminate].
Qed.

(** A tick period of at least 1 ms whose window fits [uint32_t]: the window
    of the test is then DEBOUNCE_TIME_MS tick periods, no shorter than
    DEBOUNCE_TIME_MS milliseconds. *)
Lemma debounce_window_lower_bound :
  1 <= portTICK_PERIOD_MS ->
  DEBOUNCE_TIME_MS * portTICK_PERIOD_MS < 2 ^ 32 ->
  uint32 (DEBOUNCE_TIME_MS * portTICK_PERIOD_MS) = DEBOUNCE_TIME_MS * portTICK_PERIOD_MS /\
  DEBOUNCE_TIME_MS <= DEBOUNCE_TIME_MS * portTICK_PERIOD_MS.
Proof.
  intros Hone Hfits. unfold DEBOUNCE_TIME_MS in *. split; [|lia].
  unfold uint32. apply Z.mod_small. lia.
Qed.

(** Bounce after an accepted press: an edge whose test reads the time less
    than DEBOUNCE_TIME_MS milliseconds after the stored timestamp is
    rejected. *)
Lemma edge_inside_window_rejected
    (g : globals) (n : task_notification) (t1 t2 : Z) :
  1 <= portTICK_PERIOD_MS ->
  DEBOUNCE_TIME_MS * portTICK_PERIOD_MS < 2 ^ 32 ->
  button_debouncing g = false ->
  uint32 (tick_time_ms t1 - button_debounce_timestamp g) < DEBOUNCE_TIME_MS ->
  user_button_interrupt_handler g n true t1 t2 = (g, n, []).
Proof.
  intros Hone Hfits Harmed Hinside.
  destruct (debounce_window_lower_bound Hone Hfits) as [Hwin Hlow].
  rewrite handler_when_armed by exact Harmed.
  unfold debounce_elapsed. rewrite Hwin.
  destruct (Z.leb_spec (DEBOUNCE_TIME_MS * portTICK_PERIOD_MS)
              (uint32 (tick_time_ms t1 - button_debounce_timestamp g))); [lia|].
  reflexivity.
Qed.

(** C8.  Start the server in any state in which no press is in progress,
    as the initialiser of button_debouncing leaves it, whatever the other
    variables and the notification slot hold, and let any callbacks,
    interrupts and turns of the task happen.  For a tick period of at least
    one millisecond, an edge of the user button is then accepted as a press
    only if no press is in progress and at least DEBOUNCE_TIME_MS
    milliseconds, counted in [uint32_t], lie between the last accepted
    timestamp and the time read for the test; it is accepted exactly when
    DEBOUNCE_TIME_MS tick periods lie between them.  An accepted edge
    notifies the task once, stores the current time as the new timestamp and
    leaves the in-progress flag clear in the same invocation; a rejected
    edge makes no call and changes neither the variables nor the
    notification slot. *)
Theorem C8_debounced_edge
    (s0 : system) (es : list event) (s : system) (calls0 : list library_call)
    (t1 t2 : Z) :
  1 <= portTICK_PERIOD_MS ->
  DEBOUNCE_TIME_MS * portTICK_PERIOD_MS < 2 ^ 32 ->
  button_debouncing (vars s0) = false ->
  run s0 es = Some (s, calls0) ->
  let '(g', n', calls) :=
    user_button_interrupt_handler (vars s) (slot s) true t1 t2 in
  (press_accepted calls = true ->
     button_debouncing (vars s) = false /\
     DEBOUNCE_TIME_MS
       <= uint32 (tick_time_ms t1 - button_debounce_timestamp (vars s))) /\
  (press_accepted calls = true <->
     DEBOUNCE_TIME_MS * portTICK_PERIOD_MS
       <= uint32 (tick_time_ms t1 - button_debounce_timestamp (vars s))) /\
  (press_accepted calls = true ->
     List.length (filter is_notify calls) = 1%nat /\
     button_debounce_timestamp g' = tick_time_ms t2 /\
     button_debouncing g' = false) /\
  (press_accepted calls = false ->
     calls = [] /\ g' = vars s /\ n' = slot s).
Proof.
  intros Hone Hfits Hstart Hrun.
  pose proof (run_keeps_flag_clear es s0 s calls0 Hrun Hstart) as Harmed.
  destruct (debounce_window_lower_bound Hone Hfits) as [Hwin Hlow].
  rewrite handler_when_armed by exact Harmed.
  unfold debounce_elapsed. rewrite Hwin.
  destruct (Z.leb_spec (DEBOUNCE_TIME_MS * portTICK_PERIOD_MS)
              (uint32 (tick_time_ms t1 - button_debounce_timestamp (vars s))))
    as [Hle|Hlt].
  - split; [|split; [|split]].
    + intros _. split; [exact Harmed | lia].
    + split; [intros _; exact Hle | intros _; reflexivity].
    + intros _. split; [reflexivity | split; reflexivity].
    + simpl. discriminate.
  - split; [|split; [|split]].
    + simpl. discriminate.
    + split; [simpl; discriminate | intros H; lia].
    + simpl. discriminate.
    + intros _. split; [reflexivity | split; reflexivity].
Qed.

End Debounce_properties.

Section Connection_properties.
Context `{cfg : BuildConfig}.



(** The flag is cleared by the disconnect callback and by nothing else. *)
Lemma step_keeps_connected (s s' : system) (e : event) (calls : list library_call) :
  is_disconnect e = false ->
  step s e = Some (s', calls) ->
  client_connected (vars s) = true ->
  client_connected (vars s') = true.
Proof.
  intros Hnot Hstep Hconn. destruct e; simpl in Hstep; try discriminate Hnot.
  - unfold user_button_interrupt_handler in Hstep.
    destruct btn1_status;
      [destruct (negb (button_debouncing (vars s)));
         [destruct (debounce_elapsed _ _)|]; simpl in Hstep;
         try destruct (button_debouncing (vars s))|];
      injection Hstep as <- _; exact Hconn.
  - unfold tcp_connection_handler in Hstep.
    destruct (accept_result =? CY_RSLT_SUCCESS);
      injection Hstep as <- _; [reflexivity | exact Hconn].
  - unfold tcp_receive_msg_handler in Hstep.
    destruct (recv_result =? CY_RSLT_SUCCESS).
    + destruct (array_store _ _ _ _); [|discriminate].
      destruct (strcmp _ _ =? RESET_VAL); injection Hstep as <- _; exact Hconn.
    + destruct (CY_RSLT_MODULE_SECURE_SOCKETS_CLOSED =? recv_result);
        injection Hstep as <- _; exact Hconn.
  - destruct (server_task_loop_body (vars s) (slot s) send_result)
      as [[[g n] c]|] eqn:Hbody; [|discriminate].
    apply loop_body_keeps_globals in Hbody. subst g.
    injection Hstep as <- _. exact Hconn.
Qed.













End Connection_properties.

Section Command_properties.
Context `{cfg : BuildConfig}.

(** An accepted press makes one notification, with the command opposite to
    the mirrored LED state. *)
Lemma handler_signals_complement
    (g : globals) (n : task_notification) (btn1_status : bool) (t1 t2 : Z) :
  press_accepted (snd (user_button_interrupt_handler g n btn1_status t1 t2)) = true ->
  snd (user_button_interrupt_handler g n btn1_status t1 t2) =
    [call_xTaskNotifyFromISR
       (if Bool.eqb CYBSP_LED_STATE_ON (led_state g) then LED_OFF_CMD else LED_ON_CMD)].
Proof.
  unfold user_button_interrupt_handler.
  destruct btn1_status; [|simpl; discriminate].
  destruct (button_debouncing g) eqn:Hflag; simpl.
  - rewrite Hflag. reflexivity.
  - destruct (debounce_elapsed t1 (button_debounce_timestamp g)); simpl.
    + reflexivity.
    + rewrite Hflag. simpl. discriminate.
Qed.

(** The mirrored LED state is written by the receive callback only, and an
    event that is not a positive acknowledgement leaves OFF as OFF. *)
Lemma step_keeps_led_off (s s' : system) (e : event) (calls : list library_call) :
  ~ acknowledges_on e ->
  step s e = Some (s', calls) ->
  led_state (vars s) = CYBSP_LED_STATE_OFF ->
  led_state (vars s') = CYBSP_LED_STATE_OFF.
Proof.
  intros Hnack Hstep Hoff. destruct e; simpl in Hstep.
  - unfold user_button_interrupt_handler in Hstep.
    destruct btn1_status;
      [destruct (negb (button_debouncing (vars s)));
         [destruct (debounce_elapsed _ _)|]; simpl in Hstep;
         try destruct (button_debouncing (vars s))|];
      injection Hstep as <- _; exact Hoff.
  - unfold tcp_connection_handler in Hstep.
    destruct (accept_result =? CY_RSLT_SUCCESS);
      injection Hstep as <- _; exact Hoff.
  - destruct (Z.eqb_spec recv_result CY_RSLT_SUCCESS) as [Hok|Herr].
    + subst recv_result.
      destruct (Nat.lt_ge_cases (List.length incoming) MAX_TCP_RECV_BUFFER_SIZE)
        as [Hshort|Hfull].
      * destruct (receive_sets_led (vars s) h incoming message_buffer Hshort)
          as [c Hret].
        rewrite Hret in Hstep. injection Hstep as <- _. simpl.
        destruct (list_eq_dec Byte.byte_eq_dec (c_string incoming) LED_ON_ACK)
          as [E|E]; [|reflexivity].
        exfalso. apply Hnack. simpl. split; [reflexivity | exact E].
      * rewrite (full_buffer_store_out_of_bounds (vars s) h incoming
                   message_buffer Hfull) in Hstep.
        discriminate.
    + unfold tcp_receive_msg_handler in Hstep.
      apply Z.eqb_neq in Herr. rewrite Herr in Hstep.
      destruct (CY_RSLT_MODULE_SECURE_SOCKETS_CLOSED =? recv_result);
        injection Hstep as <- _; exact Hoff.
  - injection Hstep as <- _. exact Hoff.
  - destruct (server_task_loop_body (vars s) (slot s) send_result)
      as [[[g n] c]|] eqn:Hbody; [|discriminate].
    apply loop_body_keeps_globals in Hbody. subst g.
    injection Hstep as <- _. exact Hoff.
Qed.

Lemma run_keeps_led_off (es : list event) :
  forall (s s' : system) (calls : list library_call),
    (forall e, In e es -> ~ acknowledges_on e) ->
    run s es = Some (s', calls) ->
    led_state (vars s) = CYBSP_LED_STATE_OFF ->
    led_state (vars s') = CYBSP_LED_STATE_OFF.
Proof.
  induction es as [|e es IH]; intros s s' calls Hnack Hrun Hoff; simpl in Hrun.
  - injection Hrun as <- _. exact Hoff.
  - destruct (step s e) as [[s1 c1]|] eqn:Hstep; [|discriminate].
    destruct (run s1 es) as [[s2 c2]|] eqn:Hrest; [|discriminate].
    injection Hrun as <- _.
    apply (IH s1 s2 c2); [|exact Hrest|].
    + intros e' He'. apply Hnack. right. exact He'.
    + apply (step_keeps_led_off s s1 e c1); [|exact Hstep|exact Hoff].
      apply Hnack. left. reflexivity.
Qed.

(** C10, as amended.  For every accepted button press the value that the
    interrupt handler passes to the notification is the complement of the
    mirrored LED state it finds: LED_OFF_CMD when the state is ON and
    LED_ON_CMD otherwise.  The mirrored state has the initialiser OFF and
    only a received LED ON ACK turns it ON, so from any state of the server
    in which it is OFF, whatever the other variables hold, an accepted
    press signals LED_ON_CMD in every run in which no such acknowledgement
    was received before it; this covers the first accepted press after
    start-up unless a client has sent the acknowledgement first. *)
Theorem C10_press_signals_complement
    (s0 : system) (es : list event) (s : system) (calls0 : list library_call)
    (btn1_status : bool) (t1 t2 : Z) :
  run s0 es = Some (s, calls0) ->
  press_accepted (snd (user_button_interrupt_handler (vars s) (slot s)
                         btn1_status t1 t2)) = true ->
  let calls :=
    snd (user_button_interrupt_handler (vars s) (slot s) btn1_status t1 t2) in
  (led_state (vars s) = CYBSP_LED_STATE_ON ->
     calls = [call_xTaskNotifyFromISR LED_OFF_CMD]) /\
  (led_state (vars s) <> CYBSP_LED_STATE_ON ->
     calls = [call_xTaskNotifyFromISR LED_ON_CMD]) /\
  (led_state (vars s0) = CYBSP_LED_STATE_OFF ->
   (forall e, In e es -> ~ acknowledges_on e) ->
     calls = [call_xTaskNotifyFromISR LED_ON_CMD]).
Proof.
  intros Hrun Hacc calls. subst calls.
  rewrite (handler_signals_complement _ _ _ _ _ Hacc).
  assert (Hne : led_state (vars s) <> CYBSP_LED_STATE_ON ->
                Bool.eqb CYBSP_LED_STATE_ON (led_state (vars s)) = false).
  { intros Hne. apply Bool.eqb_false_iff. congruence. }
  split; [|split].
  - intros Hon. rewrite Hon, Bool.eqb_reflx. reflexivity.
  - intros Hoff. rewrite (Hne Hoff). reflexivity.
  - intros Hstart Hnack.
    rewrite Hne; [reflexivity|].
    rewrite (run_keeps_led_off es s0 s calls0 Hnack Hrun Hstart).
    intros H. apply LED_levels_differ. symmetry. exact H.
Qed.

End Command_properties.

(** * The theorems evaluated on concrete inputs *)

Lemma C1_witness :
  @CY_RSLT_MODULE_SECURE_SOCKETS_CLOSED sample_config <> CY_RSLT_SUCCESS /\
  client_connected sample_connected = true /\
  notification_pending sample_pending = true /\
  (exists g' calls,
      @tcp_receive_msg_handler sample_config sample_connected 10
        (@CY_RSLT_MODULE_SECURE_SOCKETS_CLOSED sample_config) [] sample_stack
      = Returned g' calls (@CY_RSLT_MODULE_SECURE_SOCKETS_CLOSED sample_config) /\
      In (call_cy_socket_disconnect 10 RESET_VAL) calls /\
      In (call_cy_socket_delete 10) calls /\
      client_connected g' = true) /\
  (exists g' n' calls,
      @server_task_loop_body sample_config sample_connected sample_pending
        (@CY_RSLT_MODULE_SECURE_SOCKETS_CLOSED sample_config)
      = Some (g', n', calls) /\
      In (call_cy_socket_disconnect (client_handle sample_connected) RESET_VAL) calls /\
      In (call_cy_socket_delete (client_handle sample_connected)) calls /\
      client_connected g' = true).
Proof.
  split; [discriminate|]. split; [reflexivity|]. split; [reflexivity|].
  apply (@C1_peer_closed_leaves_connected_flag sample_config sample_connected 10
           [] sample_stack sample_pending);
    [discriminate | reflexivity | reflexivity].
Defined.

Lemma C2_witness :
  (@MAX_TCP_RECV_BUFFER_SIZE sample_config <= List.length sample_full_message)%nat /\
  @tcp_receive_msg_handler sample_config sample_connected 10 CY_RSLT_SUCCESS
    sample_full_message sample_stack
  = OutOfBoundsStore 20 /\
  ~ (List.length (firstn (@MAX_TCP_RECV_BUFFER_SIZE sample_config) sample_full_message)
       < @MAX_TCP_RECV_BUFFER_SIZE sample_config)%nat.
Proof.
  split; [vm_compute; lia|].
  apply (@C2_terminator_store_at_capacity sample_config sample_connected 10
           sample_full_message sample_stack).
  vm_compute; lia.
Defined.

Lemma C3_witness :
  notification_pending sample_pending = true /\
  xTaskNotifyFromISR sample_pending LED_OFF_CMD eSetValueWithoutOverwrite
  = (sample_pending, false) /\
  xTaskNotifyWait
    (snd (fst (@user_button_interrupt_handler sample_config sample_connected_led_on
                 sample_pending true 1000 1000)))
  = Some (LED_ON_CMD,
          {| ulNotifiedValue := LED_ON_CMD; notification_pending := false |}).
Proof.
  split; [reflexivity|].
  apply (@C3_pending_value_is_kept sample_config sample_connected_led_on
           sample_pending true 1000 1000 LED_OFF_CMD).
  reflexivity.
Defined.

(** The claim of C3 fails here: '1' is pending, the handler finds the LED
    ON, is accepted and notifies with '0', and the next wait of the task
    still observes '1', the older value. *)
Lemma C3_counterexample :
  notification_pending sample_pending = true /\
  snd (@user_button_interrupt_handler sample_config sample_connected_led_on
         sample_pending true 1000 1000)
  = [call_xTaskNotifyFromISR LED_OFF_CMD] /\
  (forall observed n',
     xTaskNotifyWait
       (snd (fst (@user_button_interrupt_handler sample_config sample_connected_led_on
                    sample_pending true 1000 1000)))
     = Some (observed, n') ->
     observed = LED_ON_CMD /\ observed <> LED_OFF_CMD).
Proof.
  split; [reflexivity|]. split; [reflexivity|].
  intros observed n' Hwait. vm_compute in Hwait.
  injection Hwait as <- _. split; [reflexivity | discriminate].
Qed.

Lemma sample_auth_mode_is_the_only_failure (c : startup_call) :
  c <> call_cy_socket_setsockopt CY_SOCKET_SO_TLS_AUTH_MODE ->
  answer sample_library_auth_mode_fails c = CY_RSLT_SUCCESS.
Proof.
  intros Hc. destruct c as [| | | | | | | | |o| | |]; try reflexivity.
  destruct o; try reflexivity. contradiction Hc. reflexivity.
Defined.

Lemma C4_witness :
  (forall c, c <> call_cy_socket_setsockopt CY_SOCKET_SO_TLS_AUTH_MODE ->
     answer sample_library_auth_mode_fails c = CY_RSLT_SUCCESS) /\
  answer sample_library_auth_mode_fails
    (call_cy_socket_setsockopt CY_SOCKET_SO_TLS_AUTH_MODE) <> CY_RSLT_SUCCESS /\
  create_secure_tcp_server_socket sample_library_auth_mode_fails
    (@initial_globals sample_config)
  = (set_server_handle 1 (@initial_globals sample_config), setup_order, CY_RSLT_SUCCESS).
Proof.
  split; [exact sample_auth_mode_is_the_only_failure|].
  split; [discriminate|].
  apply (C4_auth_mode_failure_not_surfaced sample_library_auth_mode_fails
           (@initial_globals sample_config));
    [exact sample_auth_mode_is_the_only_failure | discriminate].
Defined.

Lemma C5_witness :
  @USE_IPV6_ADDRESS sample_config_ipv6 = true /\
  fst (connect_answer sample_library 0) = CY_RSLT_SUCCESS /\
  answer sample_library call_cy_ecm_get_ipv6_address = CY_RSLT_SUCCESS /\
  @connect_to_ethernet sample_config_ipv6 sample_library
    (@initial_globals sample_config_ipv6)
  = ([call_cy_ecm_init; call_cy_ecm_ethif_init; call_cy_ecm_connect;
      call_cy_ecm_get_ipv6_address],
     Some (set_tcp_server_addr
             {| ip_address := 0;
                ip_version := Some CY_SOCKET_IP_VER_V6;
                port := 50007 |} (@initial_globals sample_config_ipv6),
           CY_RSLT_SUCCESS)).
Proof.
  split; [reflexivity|]. split; [reflexivity|]. split; [reflexivity|].
  apply (@C5_ipv6_address_not_recorded sample_config_ipv6 sample_library
           (@initial_globals sample_config_ipv6)); reflexivity.
Defined.

Lemma C6_witness :
  (List.length LED_ON_ACK < @MAX_TCP_RECV_BUFFER_SIZE sample_config)%nat /\
  exists g' calls,
    @tcp_receive_msg_handler sample_config sample_connected 10 CY_RSLT_SUCCESS
      LED_ON_ACK sample_stack
    = Returned g' calls CY_RSLT_SUCCESS /\
    (led_state g' = @CYBSP_LED_STATE_ON sample_config
       <-> c_string LED_ON_ACK = LED_ON_ACK) /\
    (led_state g' = @CYBSP_LED_STATE_OFF sample_config
       <-> c_string LED_ON_ACK <> LED_ON_ACK).
Proof.
  split; [vm_compute; lia|].
  apply (@C6_led_on_iff_c_string_is_ack sample_config sample_connected 10
           LED_ON_ACK sample_stack).
  vm_compute; lia.
Defined.

(** The claim of C6 fails here: the eleven bytes of the acknowledgement
    followed by a NUL are not byte for byte the ten of LED ON ACK, and the
    handler sets the mirrored LED state to ON. *)
Lemma C6_counterexample :
  sample_ack_with_terminator <> LED_ON_ACK /\
  exists calls,
    @tcp_receive_msg_handler sample_config sample_connected 10 CY_RSLT_SUCCESS
      sample_ack_with_terminator sample_stack
    = Returned (set_led_state (@CYBSP_LED_STATE_ON sample_config) sample_connected)
        calls CY_RSLT_SUCCESS.
Proof.
  split; [discriminate|].
  eexists. vm_compute. reflexivity.
Qed.

Lemma C7_witness :
  client_connected (@initial_globals sample_config) = false /\
  notification_pending sample_pending = true /\
  @server_task_loop_body sample_config (@initial_globals sample_config)
    sample_pending CY_RSLT_SUCCESS
  = Some (@initial_globals sample_config,
          {| ulNotifiedValue := LED_ON_CMD; notification_pending := false |}, []).
Proof.
  split; [reflexivity|]. split; [reflexivity|].
  apply (@C7_command_discarded_when_idle sample_config
           (@initial_globals sample_config) sample_pending CY_RSLT_SUCCESS);
    reflexivity.
Defined.

Lemma C8_witness :
  1 <= @portTICK_PERIOD_MS sample_config /\
  DEBOUNCE_TIME_MS * @portTICK_PERIOD_MS sample_config < 2 ^ 32 /\
  button_debouncing (vars sample_started) = false /\
  exists s calls0,
    @run sample_config sample_started
      [connect_request 1 CY_RSLT_SUCCESS 10; button_interrupt true 1000 1000]
    = Some (s, calls0) /\
    (let '(g', n', calls) :=
       @user_button_interrupt_handler sample_config (vars s) (slot s)
         true 1200 1200 in
     (press_accepted calls = true ->
        button_debouncing (vars s) = false /\
        DEBOUNCE_TIME_MS
          <= uint32 (@tick_time_ms sample_config 1200
                     - button_debounce_timestamp (vars s))) /\
     (press_accepted calls = true <->
        DEBOUNCE_TIME_MS * @portTICK_PERIOD_MS sample_config
          <= uint32 (@tick_time_ms sample_config 1200
                     - button_debounce_timestamp (vars s))) /\
     (press_accepted calls = true ->
        List.length (filter is_notify calls) = 1%nat /\
        button_debounce_timestamp g' = @tick_time_ms sample_config 1200 /\
        button_debouncing g' = false) /\
     (press_accepted calls = false ->
        calls = [] /\ g' = vars s /\ n' = slot s)).
Proof.
  split; [vm_compute; discriminate|]. split; [reflexivity|].
  split; [reflexivity|].
  eexists; eexists. split; [vm_compute; reflexivity|].
  eapply (@C8_debounced_edge sample_config sample_started
            [connect_request 1 CY_RSLT_SUCCESS 10; button_interrupt true 1000 1000]
            _ _ 1200 1200).
  - vm_compute. discriminate.
  - reflexivity.
  - reflexivity.
  - vm_compute. reflexivity.
Defined.



Lemma C10_witness :
  exists s calls0,
    @run sample_config sample_started
      [connect_request 1 CY_RSLT_SUCCESS 10] = Some (s, calls0) /\
    press_accepted (snd (@user_button_interrupt_handler sample_config
                           (vars s) (slot s) true 1000 1000)) = true /\
    led_state (vars sample_started) = @CYBSP_LED_STATE_OFF sample_config /\
    (forall e, In e [connect_request 1 CY_RSLT_SUCCESS 10] ->
       ~ acknowledges_on e) /\
    snd (@user_button_interrupt_handler sample_config (vars s) (slot s)
           true 1000 1000)
    = [call_xTaskNotifyFromISR LED_ON_CMD].
Proof.
  assert (Hnack : forall e, In e [connect_request 1 CY_RSLT_SUCCESS 10] ->
                            ~ acknowledges_on e).
  { intros e [<- | []] H. exact H. }
  eexists; eexists.
  split; [vm_compute; reflexivity|].
  split; [reflexivity|]. split; [reflexivity|]. split; [exact Hnack|].
  eapply (@C10_press_signals_complement sample_config sample_started
            [connect_request 1 CY_RSLT_SUCCESS 10] _ _ true 1000 1000).
  - vm_compute. reflexivity.
  - reflexivity.
  - reflexivity.
  - exact Hnack.
Defined.

(** The claim of C10 fails here: the mirrored LED state starts as OFF, a
    client connects and sends LED ON ACK, and the first accepted press after
    start-up signals '0', not '1'. *)
Lemma C10_counterexample :
  exists s calls,
    @run sample_config sample_started sample_ack_before_press
    = Some (s, calls) /\
    filter is_notify calls = [call_xTaskNotifyFromISR LED_OFF_CMD] /\
    LED_OFF_CMD <> LED_ON_CMD.
Proof.
  eexists; eexists. split; [vm_compute; reflexivity|].
  split; [reflexivity | discriminate].
Qed.

(** * Further properties of the bring-up and the set-up *)

Section Bring_up_outcomes.
Context `{cfg : BuildConfig}.

Lemma set_tcp_server_addr_same (g : globals) :
  set_tcp_server_addr (tcp_server_addr g) g = g.
Proof. destruct g; reflexivity. Qed.

(** What the loop can return: an error with the variables untouched, or
    success with the port and the version of the build stored; nothing but
    the server address is ever written. *)
Lemma connect_loop_outcome (lib : library_answers) (g : globals) (left : nat) :
  forall retry_count,
    (retry_count + left = MAX_ETH_RETRY_COUNT)%nat -> (0 < left)%nat ->
    let '(g', t, result) := connect_loop lib g retry_count in
    (result <> CY_RSLT_SUCCESS -> g' = g) /\
    (result = CY_RSLT_SUCCESS ->
       port (tcp_server_addr g') = TCP_SERVER_PORT /\
       ip_version (tcp_server_addr g') =
         Some (if USE_IPV6_ADDRESS then CY_SOCKET_IP_VER_V6 else CY_SOCKET_IP_VER_V4)) /\
    g' = set_tcp_server_addr (tcp_server_addr g') g.
Proof.
  induction left as [|left IH]; intros retry_count Hsum Hpos; [lia|].
  rewrite connect_loop_turn.
  destruct (negb (fst (connect_answer lib retry_count) =? CY_RSLT_SUCCESS)) eqn:Hfail.
  - destruct (Nat.leb_spec MAX_ETH_RETRY_COUNT (S retry_count)) as [Hlast|Hmore].
    + split; [reflexivity|]. split.
      * intros Hok. rewrite Hok in Hfail. discriminate Hfail.
      * symmetry. apply set_tcp_server_addr_same.
    + specialize (IH (S retry_count) ltac:(lia) ltac:(lia)).
      destruct (connect_loop lib g (S retry_count)) as [[g' t] result].
      exact IH.
  - unfold record_address.
    destruct USE_IPV6_ADDRESS.
    + destruct (Z.eqb_spec (answer lib call_cy_ecm_get_ipv6_address) CY_RSLT_SUCCESS)
        as [Hget|Hget].
      * split; [intros Hne; contradiction|]. split; [intros _; split; reflexivity|].
        reflexivity.
      * split; [reflexivity|]. split; [intros Hok; contradiction|].
        symmetry. apply set_tcp_server_addr_same.
    + split; [intros Hne; exfalso; apply Hne; reflexivity|].
      split; [intros _; split; reflexivity|]. reflexivity.
Qed.

(** X1.  connect_to_ethernet calls cy_ecm_connect at most
    MAX_ETH_RETRY_COUNT times, whatever the library answers, and at least
    once whenever it returns to its caller. *)
Theorem X1_connect_attempts_bounded (lib : library_answers) (g : globals) :
  (List.length (filter is_connect_attempt (fst (connect_to_ethernet lib g)))
     <= MAX_ETH_RETRY_COUNT)%nat /\
  (snd (connect_to_ethernet lib g) <> None ->
   (1 <= List.length (filter is_connect_attempt (fst (connect_to_ethernet lib g))))%nat).
Proof.
  pose proof (connect_loop_attempts lib g 3 0%nat eq_refl ltac:(lia)) as Hloop.
  unfold connect_to_ethernet, call, when, handle_app_error, bind, ret,
    MAX_ETH_RETRY_COUNT.
  destruct (negb (answer lib call_cy_ecm_init =? CY_RSLT_SUCCESS));
    [simpl; split; [lia | intros H; contradiction]|].
  destruct (negb (answer lib call_cy_ecm_ethif_init =? CY_RSLT_SUCCESS));
    [simpl; split; [lia | intros H; contradiction]|].
  destruct (connect_loop lib g 0) as [[g' t] result].
  unfold trace_of in Hloop. simpl in *. split; [lia | intros _; lia].
Qed.

(** X2.  When both initialisations succeed and three attempts in a row
    fail, connect_to_ethernet returns the error of the third attempt after
    exactly three calls of cy_ecm_connect, and it has assigned to none of
    tcp_server_addr, server_handle, client_handle, led_state,
    client_connected, button_debouncing and button_debounce_timestamp.
    (The call of cy_ecm_ethif_init in the trace is handed the address of
    ecm_handle; that variable is not in [globals] and the statement does
    not cover it.) *)
Theorem X2_retries_exhausted (lib : library_answers) (g : globals) :
  answer lib call_cy_ecm_init = CY_RSLT_SUCCESS ->
  answer lib call_cy_ecm_ethif_init = CY_RSLT_SUCCESS ->
  (forall k, (k < 3)%nat -> fst (connect_answer lib k) <> CY_RSLT_SUCCESS) ->
  connect_to_ethernet lib g =
    ([call_cy_ecm_init; call_cy_ecm_ethif_init;
      call_cy_ecm_connect; call_cy_ecm_connect; call_cy_ecm_connect],
     Some (g, fst (connect_answer lib 2))) /\
  fst (connect_answer lib 2) <> CY_RSLT_SUCCESS.
Proof.
  intros Hinit Hethif Hfail. split; [|apply Hfail; lia].
  unfold connect_to_ethernet, call, when, handle_app_error, bind, ret.
  rewrite Hinit, Hethif, (connect_loop_exhausted lib g Hfail).
  reflexivity.
Qed.

(** X3.  Whenever connect_to_ethernet returns, either it returns an error
    and tcp_server_addr is what it was, or it returns success and
    tcp_server_addr holds TCP_SERVER_PORT and the IP version of the build.
    In either case it has assigned to none of server_handle, client_handle,
    led_state, client_connected, button_debouncing and
    button_debounce_timestamp.  (ecm_handle, which cy_ecm_ethif_init is
    handed the address of, is not in [globals] and the statement does not
    cover it.) *)
Theorem X3_connect_result_and_address
    (lib : library_answers) (g g' : globals) (t : list startup_call)
    (result : cy_rslt_t) :
  connect_to_ethernet lib g = (t, Some (g', result)) ->
  (result <> CY_RSLT_SUCCESS -> g' = g) /\
  (result = CY_RSLT_SUCCESS ->
     port (tcp_server_addr g') = TCP_SERVER_PORT /\
     ip_version (tcp_server_addr g') =
       Some (if USE_IPV6_ADDRESS then CY_SOCKET_IP_VER_V6 else CY_SOCKET_IP_VER_V4)) /\
  g' = set_tcp_server_addr (tcp_server_addr g') g.
Proof.
  pose proof (connect_loop_outcome lib g 3 0%nat eq_refl ltac:(lia)) as Hloop.
  unfold connect_to_ethernet, call, when, handle_app_error, bind, ret.
  destruct (negb (answer lib call_cy_ecm_init =? CY_RSLT_SUCCESS));
    [simpl; discriminate|].
  destruct (negb (answer lib call_cy_ecm_ethif_init =? CY_RSLT_SUCCESS));
    [simpl; discriminate|].
  destruct (connect_loop lib g 0) as [[g1 t1] r1].
  simpl. intros H. injection H as _ <- <-. exact Hloop.
Qed.

(** X4.  In the IPv4 build, when both initialisations succeed and attempt
    number k (0, 1 or 2) is the first to succeed, connect_to_ethernet makes
    exactly k + 1 attempts and returns success with the address of that
    attempt, version 4 and TCP_SERVER_PORT in tcp_server_addr. *)
Theorem X4_ipv4_first_success_recorded
    (lib : library_answers) (g : globals) (k : nat) :
  USE_IPV6_ADDRESS = false ->
  answer lib call_cy_ecm_init = CY_RSLT_SUCCESS ->
  answer lib call_cy_ecm_ethif_init = CY_RSLT_SUCCESS ->
  (k < 3)%nat ->
  (forall j, (j < k)%nat -> fst (connect_answer lib j) <> CY_RSLT_SUCCESS) ->
  fst (connect_answer lib k) = CY_RSLT_SUCCESS ->
  connect_to_ethernet lib g =
    ([call_cy_ecm_init; call_cy_ecm_ethif_init] ++ repeat call_cy_ecm_connect (S k),
     Some (set_tcp_server_addr
             {| ip_address := snd (connect_answer lib k);
                ip_version := Some CY_SOCKET_IP_VER_V4;
                port := TCP_SERVER_PORT |} g,
           CY_RSLT_SUCCESS)).
Proof.
  intros Hv4 Hinit Hethif Hk Hbefore Hok.
  unfold connect_to_ethernet, call, when, handle_app_error, bind, ret.
  rewrite Hinit, Hethif,
    (connect_loop_ipv4_records_address lib g k Hv4 Hk Hbefore Hok).
  reflexivity.
Qed.

(** X5.  When the three connect attempts fail, tcp_secure_server_task
    enters handle_app_error, and it has made no call to the socket layer by
    then: no socket is created, configured, bound or listened on. *)
Theorem X5_no_socket_call_without_link (lib : library_answers) (g : globals) :
  (forall k, (k < 3)%nat -> fst (connect_answer lib k) <> CY_RSLT_SUCCESS) ->
  snd (server_task_startup lib g) = None /\
  existsb is_socket_call (fst (server_task_startup lib g)) = false.
Proof. apply startup_halts_when_retries_exhausted. Qed.

End Bring_up_outcomes.

Section Set_up_outcomes.
Context `{cfg : BuildConfig}.

Ltac split_on_result c :=
  match goal with
  | |- context [negb (CY_RSLT_SUCCESS =? answer ?lib c)] =>
      destruct (Z.eqb_spec CY_RSLT_SUCCESS (answer lib c)); cbn [negb]
  | |- context [negb (answer ?lib c =? CY_RSLT_SUCCESS)] =>
      destruct (Z.eqb_spec (answer lib c) CY_RSLT_SUCCESS); cbn [negb]
  end.

(** X6.  The calls of create_secure_tcp_server_socket are always an initial
    part of the fixed sequence create, receive timeout, connect callback,
    receive callback, disconnect callback, TLS identity, TLS authentication
    mode, bind: at least the create, never a step out of order or twice,
    and the only variable the function writes is server_handle. *)
Theorem X6_setup_calls_prefix (lib : library_answers) (g : globals) :
  exists k, (1 <= k <= 8)%nat /\
    trace_of (create_secure_tcp_server_socket lib g) = firstn k setup_order /\
    (fst (fst (create_secure_tcp_server_socket lib g)) = g \/
     fst (fst (create_secure_tcp_server_socket lib g))
       = set_server_handle (created_socket lib) g).
Proof.
  unfold create_secure_tcp_server_socket, trace_of.
  split_on_result call_cy_socket_create;
    [|exists 1%nat; split; [lia | split; [reflexivity | left; reflexivity]]].
  split_on_result (call_cy_socket_setsockopt CY_SOCKET_SO_RCVTIMEO);
    [|exists 2%nat; split; [lia | split; [reflexivity | right; reflexivity]]].
  split_on_result (call_cy_socket_setsockopt CY_SOCKET_SO_CONNECT_REQUEST_CALLBACK);
    [|exists 3%nat; split; [lia | split; [reflexivity | right; reflexivity]]].
  split_on_result (call_cy_socket_setsockopt CY_SOCKET_SO_RECEIVE_CALLBACK);
    [|exists 4%nat; split; [lia | split; [reflexivity | right; reflexivity]]].
  split_on_result (call_cy_socket_setsockopt CY_SOCKET_SO_DISCONNECT_CALLBACK);
    [|exists 5%nat; split; [lia | split; [reflexivity | right; reflexivity]]].
  split_on_result (call_cy_socket_setsockopt CY_SOCKET_SO_TLS_IDENTITY);
    [|exists 6%nat; split; [lia | split; [reflexivity | right; reflexivity]]].
  exists 8%nat. split; [lia | split; [reflexivity | right; reflexivity]].
Qed.

(** X7.  Each step of the set-up whose result is tested (all but the TLS
    authentication mode) ends the function when it is the first to fail:
    the failing call is the last call made and its error is the result. *)
Theorem X7_first_failure_returned
    (lib : library_answers) (g : globals)
    (before after : list startup_call) (c : startup_call) :
  setup_order = before ++ c :: after ->
  c <> call_cy_socket_setsockopt CY_SOCKET_SO_TLS_AUTH_MODE ->
  (forall c', In c' before ->
     c' <> call_cy_socket_setsockopt CY_SOCKET_SO_TLS_AUTH_MODE ->
     answer lib c' = CY_RSLT_SUCCESS) ->
  answer lib c <> CY_RSLT_SUCCESS ->
  trace_of (create_secure_tcp_server_socket lib g) = before ++ [c] /\
  snd (create_secure_tcp_server_socket lib g) = answer lib c.
Proof. apply setup_checked_step_aborts. Qed.

(** A successful set-up has made every call and every tested call
    succeeded. *)
Lemma setup_success_complete
    (lib : library_answers) (g g' : globals) (t : list startup_call) :
  create_secure_tcp_server_socket lib g = (g', t, CY_RSLT_SUCCESS) ->
  t = setup_order /\
  g' = set_server_handle (created_socket lib) g /\
  (forall c, In c setup_order ->
     c <> call_cy_socket_setsockopt CY_SOCKET_SO_TLS_AUTH_MODE ->
     answer lib c = CY_RSLT_SUCCESS).
Proof.
  unfold create_secure_tcp_server_socket.
  split_on_result call_cy_socket_create;
    [|intros H; injection H as _ _ H; congruence].
  split_on_result (call_cy_socket_setsockopt CY_SOCKET_SO_RCVTIMEO);
    [|intros H; injection H as _ _ H; congruence].
  split_on_result (call_cy_socket_setsockopt CY_SOCKET_SO_CONNECT_REQUEST_CALLBACK);
    [|intros H; injection H as _ _ H; congruence].
  split_on_result (call_cy_socket_setsockopt CY_SOCKET_SO_RECEIVE_CALLBACK);
    [|intros H; injection H as _ _ H; congruence].
  split_on_result (call_cy_socket_setsockopt CY_SOCKET_SO_DISCONNECT_CALLBACK);
    [|intros H; injection H as _ _ H; congruence].
  split_on_result (call_cy_socket_setsockopt CY_SOCKET_SO_TLS_IDENTITY);
    [|intros H; injection H as _ _ H; congruence].
  intros H. injection H as <- <- Hbind.
  split; [reflexivity|]. split; [reflexivity|].
  intros c Hin Hchecked. unfold setup_order in Hin. simpl in Hin.
  repeat (destruct Hin as [<- | Hin]; [congruence|]).
  contradiction.
Qed.

(** X8.  If create_secure_tcp_server_socket returns success, it has made all
    eight calls in order, bind last, every call whose result it tests has
    succeeded, and server_handle holds the created socket. *)
Theorem X8_setup_success_is_complete
    (lib : library_answers) (g g' : globals) (t : list startup_call) :
  create_secure_tcp_server_socket lib g = (g', t, CY_RSLT_SUCCESS) ->
  t = setup_order /\
  g' = set_server_handle (created_socket lib) g /\
  (forall c, In c setup_order ->
     c <> call_cy_socket_setsockopt CY_SOCKET_SO_TLS_AUTH_MODE ->
     answer lib c = CY_RSLT_SUCCESS).
Proof. apply setup_success_complete. Qed.

End Set_up_outcomes.

Section Start_up_outcomes.
Context `{cfg : BuildConfig}.

Lemma setup_all_succeed (lib : library_answers) (g : globals) :
  (forall c, In c setup_order ->
     c <> call_cy_socket_setsockopt CY_SOCKET_SO_TLS_AUTH_MODE ->
     answer lib c = CY_RSLT_SUCCESS) ->
  create_secure_tcp_server_socket lib g
  = (set_server_handle (created_socket lib) g, setup_order, CY_RSLT_SUCCESS).
Proof.
  intros Hok. unfold create_secure_tcp_server_socket.
  repeat match goal with
  | |- context [answer ?l ?c] =>
      let E := fresh "E" in
      assert (E : answer l c = CY_RSLT_SUCCESS)
        by (apply Hok; [unfold setup_order; simpl; tauto | discriminate]);
      rewrite E; clear E
  end.
  rewrite Z.eqb_refl. reflexivity.
Qed.


(** X10.  When every start-up call succeeds and only cy_socket_listen fails,
    tcp_secure_server_task deletes the server socket and enters
    handle_app_error: after the complete set-up its last two calls are the
    listen and cy_socket_delete, and the loop is not reached. *)
Theorem X10_listen_failure_deletes_socket (lib : library_answers) (g : globals) :
  (forall c, c <> call_cy_socket_listen -> answer lib c = CY_RSLT_SUCCESS) ->
  fst (connect_answer lib 0) = CY_RSLT_SUCCESS ->
  answer lib call_cy_socket_listen <> CY_RSLT_SUCCESS ->
  snd (server_task_startup lib g) = None /\
  exists t0,
    fst (server_task_startup lib g)
    = t0 ++ setup_order ++ [call_cy_socket_listen; call_cy_socket_delete_server].
Proof.
  intros Hothers Hlink Hlisten.
  assert (Hl : (CY_RSLT_SUCCESS =? answer lib call_cy_socket_listen) = false)
    by (apply Z.eqb_neq; congruence).
  assert (Hsetup : forall g0,
            create_secure_tcp_server_socket lib g0
            = (set_server_handle (created_socket lib) g0, setup_order, CY_RSLT_SUCCESS)).
  { intros g0. apply setup_all_succeed. intros c Hin _. apply Hothers.
    intros ->. simpl in Hin.
    repeat (destruct Hin as [Hin|Hin]; [discriminate Hin|]). exact Hin. }
  unfold server_task_startup, connect_to_ethernet, call, when, handle_app_error,
    bind, ret.
  rewrite connect_loop_turn, (successful_attempt lib 0 Hlink).
  rewrite !(Hothers call_Cy_SysInt_Init), !(Hothers call_cy_ecm_init),
    !(Hothers call_cy_ecm_ethif_init), !(Hothers call_cy_socket_init),
    !(Hothers call_cy_tls_create_identity),
    !(Hothers call_cy_tls_load_global_root_ca_certificates) by discriminate.
  unfold record_address.
  rewrite (Hothers call_cy_ecm_get_ipv6_address) by discriminate.
  rewrite !Z.eqb_refl. change (0 =? CY_RSLT_SUCCESS) with true.
  destruct USE_IPV6_ADDRESS; cbn -[create_secure_tcp_server_socket Z.eqb];
    rewrite Hsetup; cbn -[setup_order Z.eqb]; rewrite ?Z.eqb_refl; cbn -[setup_order Z.eqb]; rewrite Hl; cbn -[setup_order].
  - split; [reflexivity|].
    exists [call_Cy_SysInt_Init; call_cy_ecm_init; call_cy_ecm_ethif_init;
            call_cy_ecm_connect; call_cy_ecm_get_ipv6_address; call_cy_socket_init;
            call_cy_tls_create_identity;
            call_cy_tls_load_global_root_ca_certificates].
    reflexivity.
  - split; [reflexivity|].
    exists [call_Cy_SysInt_Init; call_cy_ecm_init; call_cy_ecm_ethif_init;
            call_cy_ecm_connect; call_cy_socket_init;
            call_cy_tls_create_identity;
            call_cy_tls_load_global_root_ca_certificates].
    reflexivity.
Qed.

End Start_up_outcomes.

(** * Further properties of the running server *)

Section Run_properties.
Context `{cfg : BuildConfig}.

(** Induction along a run: a property of the state that every step keeps,
    and a property of the calls that every step from such a state makes,
    for the events that satisfy [R]. *)
Lemma run_induction
    (R : event -> Prop) (P : system -> Prop) (Q : library_call -> Prop) :
  (forall s e s' calls,
     R e -> P s -> step s e = Some (s', calls) -> P s' /\ Forall Q calls) ->
  forall es s s' calls,
    Forall R es -> P s -> run s es = Some (s', calls) ->
    P s' /\ Forall Q calls.
Proof.
  intros Hstep. induction es as [|e es IH]; intros s s' calls HR HP Hrun;
    simpl in Hrun.
  - injection Hrun as <- <-. split; [exact HP | constructor].
  - inversion HR as [|? ? He Hes]; subst.
    destruct (step s e) as [[s1 c1]|] eqn:Hs; [|discriminate].
    destruct (run s1 es) as [[s2 c2]|] eqn:Hrest; [|discriminate].
    injection Hrun as <- <-.
    destruct (Hstep s e s1 c1 He HP Hs) as [HP1 HQ1].
    destruct (IH s1 s2 c2 Hes HP1 Hrest) as [HP2 HQ2].
    split; [exact HP2 | apply Forall_app; split; assumption].
Qed.

Lemma Forall_trivial_events (es : list event) : Forall (fun _ => True) es.
Proof. induction es; constructor; auto. Qed.

Ltac handler_cases s Hstep :=
  match type of Hstep with
  | step _ ?e = _ =>
      destruct e as [btn t1 t2 | listener accept_result accepted
                    | h recv_result incoming message_buffer
                    | h disconnect_result | send_result];
      cbn [step] in Hstep;
      [ unfold user_button_interrupt_handler in Hstep;
        destruct btn;
          [destruct (negb (button_debouncing (vars s)));
             [destruct (debounce_elapsed _ _)|]; simpl in Hstep;
             try destruct (button_debouncing (vars s))|]
      | unfold tcp_connection_handler in Hstep;
        destruct (Z.eqb_spec accept_result CY_RSLT_SUCCESS)
      | idtac
      | unfold tcp_disconnection_handler in Hstep
      | unfold server_task_loop_body in Hstep;
        destruct (xTaskNotifyWait (slot s)) as [[cmd m]|] eqn:?;
          [|discriminate Hstep];
        destruct (client_connected (vars s)) eqn:?;
          [destruct (Z.eqb_spec CY_RSLT_SUCCESS send_result);
             [destruct (LED_ON_CMD =? cmd)
             |destruct (Z.eqb_spec CY_RSLT_MODULE_SECURE_SOCKETS_CLOSED send_result)]|] ]
  end.

(** X11.  After any run the connected flag is decided by the events alone:
    it is true when the last accepted connect request came after the last
    disconnect callback, false when a disconnect callback came last, and
    unchanged when the run has neither.  No other event, a failed accept,
    a receive, a send error or a button press, has any effect on it. *)
Theorem X11_connected_flag_follows_events
    (es : list event) (s s' : system) (calls : list library_call) :
  run s es = Some (s', calls) ->
  client_connected (vars s') = connected_after (client_connected (vars s)) es.
Proof.
  revert s s' calls. induction es as [|e es IH]; intros s s' calls Hrun;
    simpl in Hrun.
  - injection Hrun as <- _. reflexivity.
  - destruct (step s e) as [[s1 c1]|] eqn:Hstep; [|discriminate].
    destruct (run s1 es) as [[s2 c2]|] eqn:Hrest; [|discriminate].
    injection Hrun as <- _.
    rewrite (IH s1 s2 c2 Hrest). cbn [connected_after]. f_equal.
    destruct (accepts e) eqn:Hacc.
    + destruct e; try discriminate Hacc. simpl in Hacc, Hstep.
      unfold tcp_connection_handler in Hstep. rewrite Hacc in Hstep.
      injection Hstep as <- _. reflexivity.
    + destruct (is_disconnect e) eqn:Hdisc.
      * destruct e; try discriminate Hdisc. simpl in Hstep.
        injection Hstep as <- _. reflexivity.
      * destruct (client_connected (vars s)) eqn:Hconn.
        -- apply (step_keeps_connected s s1 e c1 Hdisc Hstep Hconn).
        -- destruct (client_connected (vars s1)) eqn:Hconn1; [|reflexivity].
           exfalso. clear IH Hrest.
           handler_cases s Hstep; try discriminate Hdisc;
             try (injection Hstep as <- _; simpl in Hconn1; congruence).
           ++ subst accept_result. discriminate Hacc.
           ++ unfold tcp_receive_msg_handler in Hstep.
              destruct (recv_result =? CY_RSLT_SUCCESS).
              ** destruct (array_store _ _ _ _); [|discriminate].
                 destruct (strcmp _ _ =? RESET_VAL);
                   injection Hstep as <- _; simpl in Hconn1; congruence.
              ** destruct (CY_RSLT_MODULE_SECURE_SOCKETS_CLOSED =? recv_result);
                   injection Hstep as <- _; simpl in Hconn1; congruence.
Qed.

Lemma step_led_state (s s' : system) (e : event) (calls : list library_call) :
  step s e = Some (s', calls) ->
  led_state (vars s') = led_after (led_state (vars s)) [e].
Proof.
  intros Hstep.
  handler_cases s Hstep;
    try (injection Hstep as <- _; reflexivity).
  cbn [led_after].
  destruct (Z.eqb_spec recv_result CY_RSLT_SUCCESS) as [Hok|Herr].
  - subst recv_result.
    destruct (Nat.lt_ge_cases (List.length incoming) MAX_TCP_RECV_BUFFER_SIZE)
      as [Hshort|Hfull].
    + destruct (receive_sets_led (vars s) h incoming message_buffer Hshort)
        as [c Hret].
      rewrite Hret in Hstep. injection Hstep as <- _. reflexivity.
    + rewrite (full_buffer_store_out_of_bounds (vars s) h incoming
                 message_buffer Hfull) in Hstep.
      discriminate.
  - unfold tcp_receive_msg_handler in Hstep.
    apply Z.eqb_neq in Herr. rewrite Herr in Hstep.
    destruct (CY_RSLT_MODULE_SECURE_SOCKETS_CLOSED =? recv_result);
      injection Hstep as <- _; reflexivity.
Qed.

(** X12.  After any run the mirrored LED state is decided by the last
    successful receive alone: ON when the C string of its message is LED ON
    ACK, OFF for any other message; with no successful receive it is what
    it was.  Button presses, sends, connects and disconnects never change
    it. *)
Theorem X12_led_state_follows_last_receive
    (es : list event) (s s' : system) (calls : list library_call) :
  run s es = Some (s', calls) ->
  led_state (vars s') = led_after (led_state (vars s)) es.
Proof.
  revert s s' calls. induction es as [|e es IH]; intros s s' calls Hrun;
    simpl in Hrun.
  - injection Hrun as <- _. reflexivity.
  - destruct (step s e) as [[s1 c1]|] eqn:Hstep; [|discriminate].
    destruct (run s1 es) as [[s2 c2]|] eqn:Hrest; [|discriminate].
    injection Hrun as <- _.
    rewrite (IH s1 s2 c2 Hrest), (step_led_state s s1 e c1 Hstep).
    destruct e; reflexivity.
Qed.

Lemma command_is_byte (v : Z) :
  v = LED_ON_CMD \/ v = LED_OFF_CMD -> Z.land v 255 = v /\ uint32 v = v.
Proof. intros [-> | ->]; split; reflexivity. Qed.

Lemma step_sends_commands (s s' : system) (e : event) (calls : list library_call) :
  pending_is_command (slot s) ->
  step s e = Some (s', calls) ->
  pending_is_command (slot s') /\ Forall well_formed_send calls.
Proof.
  intros Hslot Hstep.
  assert (Hcmd : forall b : bool,
            (if b then LED_OFF_CMD else LED_ON_CMD) = LED_ON_CMD \/
            (if b then LED_OFF_CMD else LED_ON_CMD) = LED_OFF_CMD)
    by (intros [|]; auto).
  assert (Hnotify : forall v, v = LED_ON_CMD \/ v = LED_OFF_CMD ->
            pending_is_command
              (fst (xTaskNotifyFromISR (slot s) v eSetValueWithoutOverwrite))).
  { intros v Hv. unfold xTaskNotifyFromISR.
    destruct (notification_pending (slot s)) eqn:Hp; [exact Hslot|].
    intros _. simpl. rewrite (proj2 (command_is_byte v Hv)). exact Hv. }
  assert (Hwait : forall cmd m,
            xTaskNotifyWait (slot s) = Some (cmd, m) ->
            (cmd = LED_ON_CMD \/ cmd = LED_OFF_CMD) /\ pending_is_command m).
  { intros cmd m. unfold xTaskNotifyWait.
    destruct (notification_pending (slot s)) eqn:Hp; [|discriminate].
    intros H. injection H as <- <-. split; [apply Hslot; exact Hp|].
    intros Hm. discriminate Hm. }
  handler_cases s Hstep;
    try (injection Hstep as <- <-; split;
         [first [exact Hslot | apply Hnotify; apply Hcmd]
         | repeat constructor]).
  1: { unfold tcp_receive_msg_handler in Hstep.
       destruct (recv_result =? CY_RSLT_SUCCESS).
       - destruct (array_store _ _ _ _); [|discriminate].
         injection Hstep as <- <-. split; [exact Hslot | repeat constructor].
       - destruct (CY_RSLT_MODULE_SECURE_SOCKETS_CLOSED =? recv_result);
           injection Hstep as <- <-; (split; [exact Hslot | repeat constructor]). }
  all: destruct (Hwait cmd m eq_refl) as [Hc Hm];
      injection Hstep as <- <-; (split; [exact Hm|]);
      first [ apply Forall_nil
            | apply Forall_cons;
              [ simpl; rewrite (proj1 (command_is_byte _ Hc));
                split; [exact Hc | reflexivity]
              | repeat (apply Forall_cons; [exact I|]); apply Forall_nil ] ].
Qed.

(** X13.  From any state of the server in which the notification slot is
    empty or holds a command the interrupt handler writes ('1' or '0'),
    whatever the variables hold and whatever the events, every
    cy_socket_send the server issues carries exactly one byte, and that
    byte is '1' or '0'. *)
Theorem X13_only_commands_are_sent
    (s0 : system) (es : list event) (s : system) (calls : list library_call) :
  pending_is_command (slot s0) ->
  run s0 es = Some (s, calls) ->
  forall h payload len,
    In (call_cy_socket_send h payload len) calls ->
    (payload = LED_ON_CMD \/ payload = LED_OFF_CMD) /\ len = TCP_LED_CMD_LEN.
Proof.
  intros Hslot Hrun h payload len Hin.
  destruct (run_induction (fun _ => True) (fun st => pending_is_command (slot st))
              well_formed_send
              (fun st e st' c _ HP Hs => step_sends_commands st st' e c HP Hs)
              es s0 s calls (Forall_trivial_events es) Hslot Hrun) as [_ Hall].
  rewrite Forall_forall in Hall. apply (Hall _ Hin).
Qed.

(** X14.  What tcp_receive_msg_handler does never depends on what the
    automatic array message_buffer held on entry: with the same variables,
    result of cy_socket_recv and received bytes, any two initial contents
    give the same outcome.  No uninitialised byte is ever looked at. *)
Theorem X14_receive_ignores_stale_buffer
    (g : globals) (socket_handle : cy_socket_t) (recv_result : cy_rslt_t)
    (incoming buffer1 buffer2 : list byte) :
  tcp_receive_msg_handler g socket_handle recv_result incoming buffer1
  = tcp_receive_msg_handler g socket_handle recv_result incoming buffer2.
Proof.
  destruct (Z.eqb_spec recv_result CY_RSLT_SUCCESS) as [Hok|Herr].
  - subst recv_result.
    destruct (Nat.lt_ge_cases (List.length incoming) MAX_TCP_RECV_BUFFER_SIZE)
      as [Hshort|Hfull].
    + unfold tcp_receive_msg_handler. rewrite Z.eqb_refl.
      rewrite !(terminator_store_in_bounds incoming _ Hshort).
      unfold NULL_CHARACTER, LED_ON_ACK_literal, RESET_VAL.
      pose proof (fun rest => strcmp_terminated incoming rest LED_ON_ACK
                                LED_ON_ACK_has_no_terminator) as Hcmp.
      destruct (list_eq_dec Byte.byte_eq_dec (c_string incoming) LED_ON_ACK)
        as [E|E].
      * rewrite !(proj2 (Hcmp _) E). reflexivity.
      * repeat match goal with
        | |- context [strcmp ?a ?b =? 0] =>
            let Hz := fresh "Hz" in
            destruct (Z.eqb_spec (strcmp a b) 0) as [Hz|Hz];
            [apply Hcmp in Hz; contradiction|]
        end.
        reflexivity.
    + rewrite !(full_buffer_store_out_of_bounds g socket_handle incoming _ Hfull).
      reflexivity.
  - unfold tcp_receive_msg_handler.
    apply Z.eqb_neq in Herr. rewrite Herr. reflexivity.
Qed.

Lemma step_releases_only_on_close
    (s s' : system) (e : event) (calls : list library_call) :
  is_disconnect e = false /\ peer_closed e = false ->
  True ->
  step s e = Some (s', calls) ->
  True /\ Forall (fun c => is_release c = false) calls.
Proof.
  intros [Hdisc Hclosed] _ Hstep. split; [exact I|].
  handler_cases s Hstep; try discriminate Hdisc;
    try (solve [injection Hstep as _ <-; repeat constructor]).
  - unfold tcp_receive_msg_handler in Hstep. cbn [peer_closed] in Hclosed.
    destruct (recv_result =? CY_RSLT_SUCCESS).
    + destruct (array_store _ _ _ _); [|discriminate].
      injection Hstep as _ <-. repeat constructor.
    + cbn [negb andb] in Hclosed. rewrite Hclosed in Hstep.
      injection Hstep as _ <-. repeat constructor.
  - exfalso. cbn [peer_closed] in Hclosed.
    match goal with
    | Hne : CY_RSLT_SUCCESS <> send_result, Heq : _ = send_result |- _ =>
        apply Z.eqb_neq in Hne; rewrite Hne, <- Heq, Z.eqb_refl in Hclosed
    end.
    discriminate Hclosed.
Qed.

(** X15.  In a run without a disconnect callback and without a closed-peer
    error the server never calls cy_socket_disconnect or cy_socket_delete:
    failed accepts, other receive errors and other send errors release
    nothing. *)
Theorem X15_no_release_without_close
    (es : list event) (s s' : system) (calls : list library_call) :
  Forall (fun e => is_disconnect e = false /\ peer_closed e = false) es ->
  run s es = Some (s', calls) ->
  existsb is_release calls = false.
Proof.
  intros Hquiet Hrun.
  destruct (run_induction (fun e => is_disconnect e = false /\ peer_closed e = false)
              (fun _ => True) (fun c => is_release c = false)
              (fun st e st' c => step_releases_only_on_close st st' e c)
              es s s' calls Hquiet I Hrun)
    as [_ Hall].
  clear Hrun. induction Hall as [|c l Hc _ IH]; [reflexivity|].
  simpl. rewrite Hc. exact IH.
Qed.

(** X16.  Two invocations of the interrupt handler compose as a debounce
    filter: once an edge has been accepted and the time of its recording
    stored, a later edge whose test reads a time less than DEBOUNCE_TIME_MS
    milliseconds after that stored time is rejected; it makes no call and
    changes no variable, whatever the notification slot holds. *)
Theorem X16_bounce_after_press_rejected
    (g : globals) (n n2 : task_notification) (t1 t2 t1' t2' : Z) :
  1 <= portTICK_PERIOD_MS ->
  DEBOUNCE_TIME_MS * portTICK_PERIOD_MS < 2 ^ 32 ->
  button_debouncing g = false ->
  press_accepted (snd (user_button_interrupt_handler g n true t1 t2)) = true ->
  uint32 (tick_time_ms t1' - tick_time_ms t2) < DEBOUNCE_TIME_MS ->
  user_button_interrupt_handler
    (fst (fst (user_button_interrupt_handler g n true t1 t2))) n2 true t1' t2'
  = (fst (fst (user_button_interrupt_handler g n true t1 t2)), n2, []).
Proof.
  intros Hone Hfits Harmed Hacc Hinside.
  rewrite (handler_when_armed g n t1 t2 Harmed) in Hacc.
  rewrite (handler_when_armed g n t1 t2 Harmed).
  destruct (debounce_elapsed t1 (button_debounce_timestamp g)).
  - apply edge_inside_window_rejected;
      [exact Hone | exact Hfits | reflexivity | exact Hinside].
  - simpl in Hacc. discriminate Hacc.
Qed.

Lemma tick_time_ms_range (t : Z) : 0 <= tick_time_ms t < 2 ^ 32.
Proof. unfold tick_time_ms, uint32. apply Z.mod_pos_bound. reflexivity. Qed.

Lemma step_keeps_debounce_state
    (s s' : system) (e : event) (calls : list library_call) :
  True ->
  button_debouncing (vars s) = false /\
  0 <= button_debounce_timestamp (vars s) < 2 ^ 32 ->
  step s e = Some (s', calls) ->
  (button_debouncing (vars s') = false /\
   0 <= button_debounce_timestamp (vars s') < 2 ^ 32) /\
  Forall (fun _ => True) calls.
Proof.
  intros _ [Harmed Hrange] Hstep.
  split; [|apply Forall_forall; auto].
  split; [apply (step_keeps_flag_clear s s' e calls Hstep Harmed)|].
  handler_cases s Hstep;
    try (injection Hstep as <- _; simpl;
         first [exact Hrange | apply tick_time_ms_range]).
  unfold tcp_receive_msg_handler in Hstep.
  destruct (recv_result =? CY_RSLT_SUCCESS).
  - destruct (array_store _ _ _ _); [|discriminate].
    destruct (strcmp _ _ =? RESET_VAL); injection Hstep as <- _; exact Hrange.
  - destruct (CY_RSLT_MODULE_SECURE_SOCKETS_CLOSED =? recv_result);
      injection Hstep as <- _; exact Hrange.
Qed.

(** X17.  No entry point leaves a press in progress or a timestamp out of
    range: from any state of the server in which the in-progress flag is
    clear and the stored debounce timestamp is a [uint32_t] value, whatever
    the other variables hold, both are so again after any run of events. *)
Theorem X17_debounce_state_invariant
    (s0 : system) (es : list event) (s : system) (calls : list library_call) :
  button_debouncing (vars s0) = false ->
  0 <= button_debounce_timestamp (vars s0) < 2 ^ 32 ->
  run s0 es = Some (s, calls) ->
  button_debouncing (vars s) = false /\
  0 <= button_debounce_timestamp (vars s) < 2 ^ 32.
Proof.
  intros Hflag Hrange Hrun.
  apply (run_induction (fun _ => True)
           (fun st => button_debouncing (vars st) = false /\
                      0 <= button_debounce_timestamp (vars st) < 2 ^ 32)
           (fun _ => True)
           (fun st e st' c => step_keeps_debounce_state st st' e c)
           es s0 s calls (Forall_trivial_events es)).
  - split; [exact Hflag | exact Hrange].
  - exact Hrun.
Qed.

Lemma step_keeps_listener
    (s s' : system) (e : event) (calls : list library_call) :
  step s e = Some (s', calls) ->
  server_handle (vars s') = server_handle (vars s) /\
  tcp_server_addr (vars s') = tcp_server_addr (vars s).
Proof.
  intros Hstep.
  handler_cases s Hstep;
    try (injection Hstep as <- _; split; reflexivity).
  unfold tcp_receive_msg_handler in Hstep.
  destruct (recv_result =? CY_RSLT_SUCCESS).
  - destruct (array_store _ _ _ _); [|discriminate].
    destruct (strcmp _ _ =? RESET_VAL); injection Hstep as <- _; split; reflexivity.
  - destruct (CY_RSLT_MODULE_SECURE_SOCKETS_CLOSED =? recv_result);
      injection Hstep as <- _; split; reflexivity.
Qed.

(** X18.  Once the loop runs, no entry point ever writes the listening
    socket's handle or the bound address: after any run server_handle and
    tcp_server_addr are what they were, whatever clients connect, send or
    disconnect. *)
Theorem X18_listener_never_changes
    (es : list event) (s s' : system) (calls : list library_call) :
  run s es = Some (s', calls) ->
  server_handle (vars s') = server_handle (vars s) /\
  tcp_server_addr (vars s') = tcp_server_addr (vars s).
Proof.
  revert s s' calls. induction es as [|e es IH]; intros s s' calls Hrun;
    simpl in Hrun.
  - injection Hrun as <- _. split; reflexivity.
  - destruct (step s e) as [[s1 c1]|] eqn:Hstep; [|discriminate].
    destruct (run s1 es) as [[s2 c2]|] eqn:Hrest; [|discriminate].
    injection Hrun as <- _.
    destruct (IH s1 s2 c2 Hrest) as [Hh Ha].
    destruct (step_keeps_listener s s1 e c1 Hstep) as [Hh1 Ha1].
    split; congruence.
Qed.

(** X19.  From button to wire: when a client is connected, the notification
    slot is free and the debounce window has passed, an edge of the user
    button followed by a turn of the task makes exactly one cy_socket_send,
    on the client handle, of the one byte that is the complement of the
    mirrored LED state ('0' when it is ON, '1' otherwise), and the slot is
    free again afterwards; this holds whatever cy_socket_send answers. *)
Theorem X19_press_is_sent_to_client
    (s : system) (t1 t2 : Z) (send_result : cy_rslt_t) :
  button_debouncing (vars s) = false ->
  notification_pending (slot s) = false ->
  client_connected (vars s) = true ->
  debounce_elapsed t1 (button_debounce_timestamp (vars s)) = true ->
  exists s' calls,
    run s [button_interrupt true t1 t2; task_turn send_result] = Some (s', calls) /\
    filter is_send calls =
      [call_cy_socket_send (client_handle (vars s))
         (if Bool.eqb CYBSP_LED_STATE_ON (led_state (vars s))
          then LED_OFF_CMD else LED_ON_CMD)
         TCP_LED_CMD_LEN] /\
    notification_pending (slot s') = false.
Proof.
  intros Harmed Hfree Hconn Helapsed.
  cbn [run step].
  rewrite (handler_when_armed (vars s) (slot s) t1 t2 Harmed), Helapsed.
  rewrite (notify_without_overwrite_free (slot s) _ Hfree).
  cbn [fst snd vars slot].
  unfold server_task_loop_body, xTaskNotifyWait.
  cbn [notification_pending ulNotifiedValue client_connected client_handle
       set_button_debouncing set_button_debounce_timestamp].
  rewrite Hconn.
  assert (Hbyte : forall b : bool,
            Z.land (uint32 (if b then LED_OFF_CMD else LED_ON_CMD)) 255
            = (if b then LED_OFF_CMD else LED_ON_CMD))
    by (intros [|]; reflexivity).
  rewrite Hbyte.
  destruct (CY_RSLT_SUCCESS =? send_result).
  - destruct (LED_ON_CMD =? _);
      eexists; eexists; (split; [reflexivity|]); split; reflexivity.
  - destruct (CY_RSLT_MODULE_SECURE_SOCKETS_CLOSED =? send_result);
      eexists; eexists; (split; [reflexivity|]); split; reflexivity.
Qed.

(** X20.  After the receive callback has reported a closed peer on the
    connected client's handle, that handle has been given to
    cy_socket_delete, yet the next turn of the task with a pending command
    still calls cy_socket_send on it: the connected flag was left set. *)
Theorem X20_send_on_deleted_handle
    (s : system) (incoming message_buffer : list byte) (send_result : cy_rslt_t) :
  CY_RSLT_MODULE_SECURE_SOCKETS_CLOSED <> CY_RSLT_SUCCESS ->
  client_connected (vars s) = true ->
  notification_pending (slot s) = true ->
  exists s' calls1 calls2,
    run s [data_received (client_handle (vars s))
             CY_RSLT_MODULE_SECURE_SOCKETS_CLOSED incoming message_buffer;
           task_turn send_result]
    = Some (s', calls1 ++ calls2) /\
    In (call_cy_socket_delete (client_handle (vars s))) calls1 /\
    existsb is_send calls1 = false /\
    exists payload,
      In (call_cy_socket_send (client_handle (vars s)) payload TCP_LED_CMD_LEN) calls2.
Proof.
  intros Herr Hconn Hpending.
  apply Z.eqb_neq in Herr.
  cbn [run step]. unfold tcp_receive_msg_handler.
  rewrite Herr, Z.eqb_refl.
  cbn [vars slot].
  unfold server_task_loop_body.
  rewrite (xTaskNotifyWait_pending (slot s) Hpending), Hconn.
  destruct (CY_RSLT_SUCCESS =? send_result).
  - destruct (LED_ON_CMD =? _);
      eexists; eexists; eexists; (split; [rewrite app_nil_r; reflexivity|]);
      (split; [simpl; tauto|]); (split; [reflexivity|]);
      eexists; left; reflexivity.
  - destruct (CY_RSLT_MODULE_SECURE_SOCKETS_CLOSED =? send_result);
      eexists; eexists; eexists; (split; [rewrite app_nil_r; reflexivity|]);
      (split; [simpl; tauto|]); (split; [reflexivity|]);
      eexists; left; reflexivity.
Qed.

End Run_properties.

(** * The further properties evaluated on concrete inputs *)

Lemma sample_link_down_fails (k : nat) :
  (k < 3)%nat -> fst (connect_answer sample_library_link_down k) <> CY_RSLT_SUCCESS.
Proof. intros _. discriminate. Defined.

Lemma X2_witness :
  answer sample_library_link_down call_cy_ecm_init = CY_RSLT_SUCCESS /\
  answer sample_library_link_down call_cy_ecm_ethif_init = CY_RSLT_SUCCESS /\
  (forall k, (k < 3)%nat ->
     fst (connect_answer sample_library_link_down k) <> CY_RSLT_SUCCESS) /\
  @connect_to_ethernet sample_config sample_library_link_down
    (@initial_globals sample_config)
  = ([call_cy_ecm_init; call_cy_ecm_ethif_init;
      call_cy_ecm_connect; call_cy_ecm_connect; call_cy_ecm_connect],
     Some (@initial_globals sample_config,
           fst (connect_answer sample_library_link_down 2))) /\
  fst (connect_answer sample_library_link_down 2) <> CY_RSLT_SUCCESS.
Proof.
  split; [reflexivity|]. split; [reflexivity|].
  split; [exact sample_link_down_fails|].
  apply (@X2_retries_exhausted sample_config sample_library_link_down
           (@initial_globals sample_config));
    [reflexivity | reflexivity | exact sample_link_down_fails].
Defined.

Lemma X3_witness :
  exists t g' result,
    @connect_to_ethernet sample_config sample_library_third_attempt
      (@initial_globals sample_config) = (t, Some (g', result)) /\
    (result <> CY_RSLT_SUCCESS -> g' = @initial_globals sample_config) /\
    (result = CY_RSLT_SUCCESS ->
       port (tcp_server_addr g') = @TCP_SERVER_PORT sample_config /\
       ip_version (tcp_server_addr g') = Some CY_SOCKET_IP_VER_V4) /\
    g' = set_tcp_server_addr (tcp_server_addr g') (@initial_globals sample_config).
Proof.
  eexists; eexists; eexists.
  split; [vm_compute; reflexivity|].
  eapply (@X3_connect_result_and_address sample_config sample_library_third_attempt
            (@initial_globals sample_config)).
  vm_compute. reflexivity.
Defined.

Lemma sample_third_attempt_fails_before (j : nat) :
  (j < 2)%nat -> fst (connect_answer sample_library_third_attempt j) <> CY_RSLT_SUCCESS.
Proof.
  intros Hj. destruct j as [|[|j]]; [discriminate | discriminate | lia].
Defined.

Lemma X4_witness :
  @USE_IPV6_ADDRESS sample_config = false /\
  (2 < 3)%nat /\
  (forall j, (j < 2)%nat ->
     fst (connect_answer sample_library_third_attempt j) <> CY_RSLT_SUCCESS) /\
  fst (connect_answer sample_library_third_attempt 2) = CY_RSLT_SUCCESS /\
  @connect_to_ethernet sample_config sample_library_third_attempt
    (@initial_globals sample_config)
  = ([call_cy_ecm_init; call_cy_ecm_ethif_init] ++ repeat call_cy_ecm_connect 3,
     Some (set_tcp_server_addr
             {| ip_address := snd (connect_answer sample_library_third_attempt 2);
                ip_version := Some CY_SOCKET_IP_VER_V4;
                port := @TCP_SERVER_PORT sample_config |}
             (@initial_globals sample_config),
           CY_RSLT_SUCCESS)).
Proof.
  split; [reflexivity|]. split; [lia|].
  split; [exact sample_third_attempt_fails_before|]. split; [reflexivity|].
  apply (@X4_ipv4_first_success_recorded sample_config sample_library_third_attempt
           (@initial_globals sample_config) 2);
    [reflexivity | reflexivity | reflexivity | lia
    | exact sample_third_attempt_fails_before | reflexivity].
Defined.

Lemma X5_witness :
  (forall k, (k < 3)%nat ->
     fst (connect_answer sample_library_link_down k) <> CY_RSLT_SUCCESS) /\
  snd (@server_task_startup sample_config sample_library_link_down
         (@initial_globals sample_config)) = None /\
  existsb is_socket_call
    (fst (@server_task_startup sample_config sample_library_link_down
            (@initial_globals sample_config))) = false.
Proof.
  split; [exact sample_link_down_fails|].
  apply (@X5_no_socket_call_without_link sample_config sample_library_link_down
           (@initial_globals sample_config)).
  exact sample_link_down_fails.
Defined.

Lemma sample_bind_is_first_failure (c' : startup_call) :
  In c' (firstn 7 setup_order) ->
  c' <> call_cy_socket_setsockopt CY_SOCKET_SO_TLS_AUTH_MODE ->
  answer sample_library_bind_fails c' = CY_RSLT_SUCCESS.
Proof.
  intros Hin _. simpl in Hin.
  repeat (destruct Hin as [<- | Hin]; [reflexivity|]). contradiction.
Defined.

Lemma X7_witness :
  setup_order = firstn 7 setup_order ++ call_cy_socket_bind :: [] /\
  answer sample_library_bind_fails call_cy_socket_bind <> CY_RSLT_SUCCESS /\
  trace_of (create_secure_tcp_server_socket sample_library_bind_fails
              (@initial_globals sample_config))
  = firstn 7 setup_order ++ [call_cy_socket_bind] /\
  snd (create_secure_tcp_server_socket sample_library_bind_fails
         (@initial_globals sample_config))
  = answer sample_library_bind_fails call_cy_socket_bind.
Proof.
  split; [reflexivity|]. split; [discriminate|].
  apply (X7_first_failure_returned sample_library_bind_fails
           (@initial_globals sample_config) (firstn 7 setup_order) []
           call_cy_socket_bind);
    [reflexivity | discriminate | exact sample_bind_is_first_failure | discriminate].
Defined.

Lemma X8_witness :
  create_secure_tcp_server_socket sample_library (@initial_globals sample_config)
  = (set_server_handle 1 (@initial_globals sample_config), setup_order,
     CY_RSLT_SUCCESS) /\
  (forall c, In c setup_order ->
     c <> call_cy_socket_setsockopt CY_SOCKET_SO_TLS_AUTH_MODE ->
     answer sample_library c = CY_RSLT_SUCCESS).
Proof.
  split; [reflexivity|].
  apply (X8_setup_success_is_complete sample_library
           (@initial_globals sample_config)
           (set_server_handle 1 (@initial_globals sample_config)) setup_order).
  reflexivity.
Defined.


Lemma sample_listen_is_the_only_failure (c : startup_call) :
  c <> call_cy_socket_listen ->
  answer sample_library_listen_fails c = CY_RSLT_SUCCESS.
Proof.
  intros Hc. destruct c; try reflexivity. contradiction Hc. reflexivity.
Defined.

Lemma X10_witness :
  (forall c, c <> call_cy_socket_listen ->
     answer sample_library_listen_fails c = CY_RSLT_SUCCESS) /\
  fst (connect_answer sample_library_listen_fails 0) = CY_RSLT_SUCCESS /\
  answer sample_library_listen_fails call_cy_socket_listen <> CY_RSLT_SUCCESS /\
  snd (@server_task_startup sample_config sample_library_listen_fails
         (@initial_globals sample_config)) = None /\
  exists t0,
    fst (@server_task_startup sample_config sample_library_listen_fails
           (@initial_globals sample_config))
    = t0 ++ setup_order ++ [call_cy_socket_listen; call_cy_socket_delete_server].
Proof.
  split; [exact sample_listen_is_the_only_failure|].
  split; [reflexivity|]. split; [discriminate|].
  apply (@X10_listen_failure_deletes_socket sample_config
           sample_library_listen_fails (@initial_globals sample_config));
    [exact sample_listen_is_the_only_failure | reflexivity | discriminate].
Defined.

Lemma X11_witness :
  exists s' calls,
    @run sample_config (@initial_system sample_config) sample_visit
    = Some (s', calls) /\
    client_connected (vars s')
    = connected_after (client_connected (vars (@initial_system sample_config)))
        sample_visit /\
    connected_after false sample_visit = false /\
    connected_after false (firstn 3 sample_visit) = true.
Proof.
  eexists; eexists. split; [vm_compute; reflexivity|].
  split; [|split; reflexivity].
  eapply (@X11_connected_flag_follows_events sample_config sample_visit
            (@initial_system sample_config)).
  vm_compute. reflexivity.
Defined.

Lemma X12_witness :
  exists s' calls,
    @run sample_config (@initial_system sample_config) (firstn 2 sample_visit)
    = Some (s', calls) /\
    led_state (vars s')
    = @led_after sample_config
        (led_state (vars (@initial_system sample_config))) (firstn 2 sample_visit) /\
    @led_after sample_config false (firstn 2 sample_visit) = true /\
    @led_after sample_config false sample_visit = false.
Proof.
  eexists; eexists. split; [vm_compute; reflexivity|].
  split; [|split; reflexivity].
  eapply (@X12_led_state_follows_last_receive sample_config (firstn 2 sample_visit)
            (@initial_system sample_config)).
  vm_compute. reflexivity.
Defined.

Lemma X13_witness :
  pending_is_command (slot sample_started) /\
  exists s calls,
    @run sample_config sample_started sample_press_and_send = Some (s, calls) /\
    In (call_cy_socket_send 10 LED_ON_CMD TCP_LED_CMD_LEN) calls /\
    forall h payload len,
      In (call_cy_socket_send h payload len) calls ->
      (payload = LED_ON_CMD \/ payload = LED_OFF_CMD) /\ len = TCP_LED_CMD_LEN.
Proof.
  split; [intros H; discriminate H|].
  eexists; eexists. split; [vm_compute; reflexivity|].
  split; [simpl; tauto|].
  eapply (@X13_only_commands_are_sent sample_config sample_started
            sample_press_and_send).
  - intros H. discriminate H.
  - vm_compute. reflexivity.
Defined.

Lemma X15_witness :
  exists s' calls,
    Forall (fun e => is_disconnect e = false /\ @peer_closed sample_config e = false)
      (connect_request 1 CY_RSLT_SUCCESS 10 :: sample_session) /\
    @run sample_config (@initial_system sample_config)
      (connect_request 1 CY_RSLT_SUCCESS 10 :: sample_session)
    = Some (s', calls) /\
    existsb is_release calls = false.
Proof.
  assert (Hquiet : Forall (fun e => is_disconnect e = false /\
                                    @peer_closed sample_config e = false)
                     (connect_request 1 CY_RSLT_SUCCESS 10 :: sample_session))
    by (repeat constructor).
  eexists; eexists. split; [exact Hquiet|].
  split; [vm_compute; reflexivity|].
  eapply (@X15_no_release_without_close sample_config
            (connect_request 1 CY_RSLT_SUCCESS 10 :: sample_session)
            (@initial_system sample_config));
    [exact Hquiet | vm_compute; reflexivity].
Defined.

Lemma X16_witness :
  1 <= @portTICK_PERIOD_MS sample_config /\
  DEBOUNCE_TIME_MS * @portTICK_PERIOD_MS sample_config < 2 ^ 32 /\
  button_debouncing (@initial_globals sample_config) = false /\
  press_accepted
    (snd (@user_button_interrupt_handler sample_config
            (@initial_globals sample_config) no_notification true 1000 1000)) = true /\
  uint32 (@tick_time_ms sample_config 1050 - @tick_time_ms sample_config 1000)
    < DEBOUNCE_TIME_MS /\
  @user_button_interrupt_handler sample_config
    (fst (fst (@user_button_interrupt_handler sample_config
                 (@initial_globals sample_config) no_notification true 1000 1000)))
    sample_pending true 1050 1050
  = (fst (fst (@user_button_interrupt_handler sample_config
                 (@initial_globals sample_config) no_notification true 1000 1000)),
     sample_pending, []).
Proof.
  split; [vm_compute; discriminate|]. split; [reflexivity|].
  split; [reflexivity|]. split; [reflexivity|]. split; [reflexivity|].
  apply (@X16_bounce_after_press_rejected sample_config
           (@initial_globals sample_config) no_notification sample_pending
           1000 1000 1050 1050);
    [vm_compute; discriminate | reflexivity | reflexivity | reflexivity | reflexivity].
Defined.

Lemma X17_witness :
  button_debouncing (vars sample_started) = false /\
  0 <= button_debounce_timestamp (vars sample_started) < 2 ^ 32 /\
  exists s calls,
    @run sample_config sample_started sample_press_and_send = Some (s, calls) /\
    button_debounce_timestamp (vars s) = 1000 /\
    button_debouncing (vars s) = false /\
    0 <= button_debounce_timestamp (vars s) < 2 ^ 32.
Proof.
  split; [reflexivity|]. split; [split; [discriminate | reflexivity]|].
  eexists; eexists. split; [vm_compute; reflexivity|].
  split; [reflexivity|].
  eapply (@X17_debounce_state_invariant sample_config sample_started
            sample_press_and_send).
  - reflexivity.
  - split; [discriminate | reflexivity].
  - vm_compute. reflexivity.
Defined.

Lemma X18_witness :
  exists s' calls,
    @run sample_config (@initial_system sample_config) sample_visit
    = Some (s', calls) /\
    server_handle (vars s') = server_handle (vars (@initial_system sample_config)) /\
    tcp_server_addr (vars s')
    = tcp_server_addr (vars (@initial_system sample_config)).
Proof.
  eexists; eexists. split; [vm_compute; reflexivity|].
  eapply (@X18_listener_never_changes sample_config sample_visit
            (@initial_system sample_config)).
  vm_compute. reflexivity.
Defined.

Lemma X19_witness :
  button_debouncing sample_connected = false /\
  notification_pending no_notification = false /\
  client_connected sample_connected = true /\
  @debounce_elapsed sample_config 1000 (button_debounce_timestamp sample_connected)
  = true /\
  exists s' calls,
    @run sample_config {| vars := sample_connected; slot := no_notification |}
      [button_interrupt true 1000 1000; task_turn CY_RSLT_SUCCESS]
    = Some (s', calls) /\
    filter is_send calls
    = [call_cy_socket_send 10 LED_ON_CMD TCP_LED_CMD_LEN] /\
    notification_pending (slot s') = false.
Proof.
  split; [reflexivity|]. split; [reflexivity|]. split; [reflexivity|].
  split; [reflexivity|].
  apply (@X19_press_is_sent_to_client sample_config
           {| vars := sample_connected; slot := no_notification |}
           1000 1000 CY_RSLT_SUCCESS); reflexivity.
Defined.

Lemma X20_witness :
  @CY_RSLT_MODULE_SECURE_SOCKETS_CLOSED sample_config <> CY_RSLT_SUCCESS /\
  client_connected sample_connected = true /\
  notification_pending sample_pending = true /\
  exists s' calls1 calls2,
    @run sample_config {| vars := sample_connected; slot := sample_pending |}
      [data_received 10 (@CY_RSLT_MODULE_SECURE_SOCKETS_CLOSED sample_config)
         [] sample_stack;
       task_turn CY_RSLT_SUCCESS]
    = Some (s', calls1 ++ calls2) /\
    In (call_cy_socket_delete 10) calls1 /\
    existsb is_send calls1 = false /\
    exists payload,
      In (call_cy_socket_send 10 payload TCP_LED_CMD_LEN) calls2.
Proof.
  split; [discriminate|]. split; [reflexivity|]. split; [reflexivity|].
  apply (@X20_send_on_deleted_handle sample_config
           {| vars := sample_connected; slot := sample_pending |}
           [] sample_stack CY_RSLT_SUCCESS);
    [discriminate | reflexivity | reflexivity].
Defined.
